(** * RunwayAI: the financial analytics of the storage layer

    A shallow embedding of [getFinancialSummary] and [getExpenseBreakdown]
    as they are written in [server/storage.ts] (class [DatabaseStorage]) and
    in [server/mock-storage.ts] (class [MockStorage]), together with the
    parts of the JavaScript runtime these two methods call: [Date], the
    arithmetic of numbers, [parseFloat], [||], [+] and plain objects used
    as dictionaries.  It goes on with the arrays of [MockStorage] and
    their methods, the table of the routes of [server/routes.ts], and the
    computations of the forecasting and budget pages of the client.

    Conventions.
    - A [Date] is its time value, milliseconds since the epoch, as a [Z].
      The clock ([new Date()]) is the explicit argument [now].
    - The arithmetic of JavaScript numbers is an interface, [JSNumber]; its
      instance [Binary64] is the arithmetic of the runtime, IEEE 754
      doubles.  What is proved for every instance holds of [Binary64];
      what depends on rounding is stated of [Binary64] itself.
    - A table or an array is a list, scanned front to back.  A query
      without [ORDER BY] returns its rows in an order of its own: what is
      said of the rows of the database is said of the list the query
      returns. *)

From Stdlib Require Import ZArith List String Ascii Bool Lia.
From Stdlib Require Import Floats Permutation Sorted.
Import ListNotations.

Set Implicit Arguments.
Local Open Scope Z_scope.

(** ** The JavaScript runtime *)

Module JS.

(** *** Dates (ECMAScript, "Time Values and Time Range") *)

Definition msPerDay : Z := 86400000.
Definition msPerHour : Z := 3600000.
Definition msPerMinute : Z := 60000.
Definition msPerSecond : Z := 1000.

Definition Day (t : Z) : Z := t / msPerDay.
Definition TimeWithinDay (t : Z) : Z := t mod msPerDay.

Definition leapYear (y : Z) : bool :=
  ((y mod 4 =? 0) && negb (y mod 100 =? 0)) || (y mod 400 =? 0).

Definition DaysInYear (y : Z) : Z := if leapYear y then 366 else 365.

Definition DayFromYear (y : Z) : Z :=
  365 * (y - 1970) + (y - 1969) / 4 - (y - 1901) / 100 + (y - 1601) / 400.

Definition TimeFromYear (y : Z) : Z := msPerDay * DayFromYear y.

(** The largest [y] with [TimeFromYear y <= t]: an estimate from the mean
    length of a year, corrected by at most one. *)
Definition YearFromTime (t : Z) : Z :=
  let d := Day t in
  let y := 1970 + (400 * d) / 146097 in
  if DayFromYear (y + 1) <=? d then y + 1
  else if d <? DayFromYear y then y - 1
  else y.

Definition InLeapYear (t : Z) : Z :=
  if leapYear (YearFromTime t) then 1 else 0.

Definition DayWithinYear (t : Z) : Z := Day t - DayFromYear (YearFromTime t).

Definition MonthFromTime (t : Z) : Z :=
  let d := DayWithinYear t in
  let l := InLeapYear t in
  if d <? 31 then 0
  else if d <? 59 + l then 1
  else if d <? 90 + l then 2
  else if d <? 120 + l then 3
  else if d <? 151 + l then 4
  else if d <? 181 + l then 5
  else if d <? 212 + l then 6
  else if d <? 243 + l then 7
  else if d <? 273 + l then 8
  else if d <? 304 + l then 9
  else if d <? 334 + l then 10
  else 11.

(** Days of the year that precede month [mn] (0 = January). *)
Definition daysBeforeMonth (leap : bool) (mn : Z) : Z :=
  let l := if leap then 1 else 0 in
  if mn =? 0 then 0
  else if mn =? 1 then 31
  else if mn =? 2 then 59 + l
  else if mn =? 3 then 90 + l
  else if mn =? 4 then 120 + l
  else if mn =? 5 then 151 + l
  else if mn =? 6 then 181 + l
  else if mn =? 7 then 212 + l
  else if mn =? 8 then 243 + l
  else if mn =? 9 then 273 + l
  else if mn =? 10 then 304 + l
  else 334 + l.

Definition DateFromTime (t : Z) : Z :=
  DayWithinYear t
  - daysBeforeMonth (leapYear (YearFromTime t)) (MonthFromTime t) + 1.

Definition HourFromTime (t : Z) : Z := (t / msPerHour) mod 24.
Definition MinFromTime (t : Z) : Z := (t / msPerMinute) mod 60.

Definition MakeTime (hour min sec ms : Z) : Z :=
  hour * msPerHour + min * msPerMinute + sec * msPerSecond + ms.

(** [MakeDay]: months beyond 0..11 carry into the year, and the day of the
    month is an offset from the first, so that day 0 is the last day of the
    month before. *)
Definition MakeDay (year month date : Z) : Z :=
  let ym := year + month / 12 in
  let mn := month mod 12 in
  DayFromYear ym + daysBeforeMonth (leapYear ym) mn + date - 1.

Definition MakeDate (day time : Z) : Z := day * msPerDay + time.

(** The time zone of the server: the offset of local time, which may depend
    on the instant (daylight saving). *)
Class TimeZone := { LocalTZA : Z -> bool -> Z }.

Definition utcZone : TimeZone := {| LocalTZA := fun _ _ => 0 |}.

Section LocalDates.
Context {tz : TimeZone}.

Definition LocalTime (t : Z) : Z := t + LocalTZA t true.
Definition UTC (t : Z) : Z := t - LocalTZA t false.

(** [date.getFullYear()] and [date.getMonth()]. *)
Definition getFullYear (date : Z) : Z := YearFromTime (LocalTime date).
Definition getMonth (date : Z) : Z := MonthFromTime (LocalTime date).
Definition getDate (date : Z) : Z := DateFromTime (LocalTime date).

(** [new Date(year, month, date)]: local midnight of that day.  Years 0
    to 99 denote 1900 to 1999.  (The range check of [TimeClip] is left
    out: the clock is far from year 275760.) *)
Definition newDate (year month date : Z) : Z :=
  let yr := if (0 <=? year) && (year <=? 99) then 1900 + year else year in
  UTC (MakeDate (MakeDay yr month date) (MakeTime 0 0 0 0)).
End LocalDates.

(** *** Numbers

    The operations on numbers that the analytics use.  [ngt x y] is
    [x > y], [nle x y] is [x <= y], [ntruthy] is [ToBoolean], [nabs] is
    [Math.abs] and [ofDecimal s m e] is the number that the decimal literal
    of sign [s], digits [m] and exponent [e] denotes (m times ten to the e). *)
Class JSNumber := {
  number : Type;
  NaN : number;
  Infinity : number;
  ofDecimal : bool -> N -> Z -> number;
  nadd : number -> number -> number;
  nsub : number -> number -> number;
  nmul : number -> number -> number;
  ndiv : number -> number -> number;
  nneg : number -> number;
  nabs : number -> number;
  ngt : number -> number -> bool;
  nle : number -> number -> bool;
  ntruthy : number -> bool
}.

Declare Scope js_scope.
Delimit Scope js_scope with js.
Notation "x + y" := (nadd x y) : js_scope.
Notation "x - y" := (nsub x y) : js_scope.
Notation "x * y" := (nmul x y) : js_scope.
Notation "x / y" := (ndiv x y) : js_scope.
Notation "- x" := (nneg x) : js_scope.
Notation "x >? y" := (ngt x y) (at level 70) : js_scope.
Notation "x <=? y" := (nle x y) (at level 70) : js_scope.

(** A numeric literal of the source: [0], [100], [999]. *)
Definition lit {Num : JSNumber} (n : N) : number := ofDecimal false n 0.

(** What the analytics rely on, in any arithmetic. *)
Class JSNumberLaws (Num : JSNumber) : Prop := {
  ngt_nle : forall x y : number, (x >? y)%js = true -> (x <=? y)%js = false;
  nabs_nneg : forall x : number, nabs (- x)%js = nabs x;
  nsub_0_0 : (lit 0 - lit 0)%js = lit 0;
  ngt_0_0 : (lit 0 >? lit 0)%js = false
}.

(** *** [parseFloat]

    Strings are read byte by byte (UTF-8).  [parseFloat] skips leading
    white space and reads the longest prefix that is a decimal literal:
    a sign, then [Infinity] or digits with an optional fraction and an
    optional exponent; whatever follows is ignored, and no literal at all
    gives NaN. *)
Inductive literal :=
| LitNaN
| LitInfinity (negative : bool)
| LitDecimal (negative : bool) (mantissa : N) (exponent : Z).

Definition digitOf (c : ascii) : option N :=
  let n := N_of_ascii c in
  if ((48 <=? n) && (n <=? 57))%N then Some (n - 48)%N else None.

(** The digits at the front of [s], appended to the digits [acc] read so
    far: their value, how many were read, and the rest of the string. *)
Fixpoint readDigits (s : string) (acc : N) (count : N) : N * N * string :=
  match s with
  | String c rest =>
      match digitOf c with
      | Some d => readDigits rest (10 * acc + d)%N (count + 1)%N
      | None => (acc, count, s)
      end
  | EmptyString => (acc, count, s)
  end.

Definition isWhiteSpace1 (c : ascii) : bool :=
  let n := N_of_ascii c in
  ((9 <=? n) && (n <=? 13) || (n =? 32))%N.

(** White space and line terminators beyond ASCII, in UTF-8: U+00A0,
    U+1680, U+2000 to U+200A, U+2028, U+2029, U+202F, U+205F, U+3000 and
    U+FEFF. *)
Definition isWhiteSpace2 (a b : ascii) : bool :=
  ((N_of_ascii a =? 194) && (N_of_ascii b =? 160))%N.

Definition isWhiteSpace3 (a b c : ascii) : bool :=
  let '(x, y, z) := (N_of_ascii a, N_of_ascii b, N_of_ascii c) in
  ((x =? 225) && (y =? 154) && (z =? 128)
   || (x =? 226) && (y =? 128)
      && ((128 <=? z) && (z <=? 138) || (z =? 168) || (z =? 169) || (z =? 175))
   || (x =? 226) && (y =? 129) && (z =? 159)
   || (x =? 227) && (y =? 128) && (z =? 128)
   || (x =? 239) && (y =? 187) && (z =? 191))%N.

Fixpoint trimStart (s : string) : string :=
  match s with
  | String a rest =>
      if isWhiteSpace1 a then trimStart rest
      else match rest with
           | String b rest2 =>
               if isWhiteSpace2 a b then trimStart rest2
               else match rest2 with
                    | String c rest3 =>
                        if isWhiteSpace3 a b c then trimStart rest3 else s
                    | EmptyString => s
                    end
           | EmptyString => s
           end
  | EmptyString => s
  end.

Definition readSign (s : string) : bool * string :=
  match s with
  | String "-" rest => (true, rest)
  | String "+" rest => (false, rest)
  | _ => (false, s)
  end.

(** An exponent part, [e] or [E], an optional sign and at least one digit;
    0 when there is none. *)
Definition readExponent (s : string) : Z :=
  match s with
  | String c rest =>
      if (Ascii.eqb c "e" || Ascii.eqb c "E")%bool then
        let '(negative, rest') := readSign rest in
        let '(e, count, _) := readDigits rest' 0%N 0%N in
        if (count =? 0)%N then 0
        else if negative then - Z.of_N e else Z.of_N e
      else 0
  | EmptyString => 0
  end.

Definition scanDecimal (negative : bool) (s : string) : literal :=
  let '(ip, ni, r1) := readDigits s 0%N 0%N in
  match r1 with
  | String "." r2 =>
      let '(m, n, r3) := readDigits r2 ip ni in
      if (n =? 0)%N then LitNaN
      else LitDecimal negative m (readExponent r3 - Z.of_N (n - ni))
  | _ =>
      if (ni =? 0)%N then LitNaN
      else LitDecimal negative ip (readExponent r1)
  end.

Definition scanFloat (s : string) : literal :=
  let '(negative, rest) := readSign (trimStart s) in
  if String.prefix "Infinity" rest then LitInfinity negative
  else scanDecimal negative rest.

Definition parseFloat {Num : JSNumber} (s : string) : number :=
  match scanFloat s with
  | LitNaN => NaN
  | LitInfinity negative => if negative then (- Infinity)%js else Infinity
  | LitDecimal negative m e => ofDecimal negative m e
  end.

(** *** Binary64: the numbers of the runtime *)

(** The double nearest to m times ten to the e (ties to even), through the
    rounding of [SpecFloat]. *)
Definition decimalToDouble (negative : bool) (m : N) (e : Z) : float :=
  match m with
  | Npos p =>
      if 0 <=? e
      then SF2Prim (binary_normalize prec emax
                      (if negative then Zneg p * 10 ^ e else Zpos p * 10 ^ e)
                      0 negative)
      else match 10 ^ (- e) with
           | Zpos q =>
               SF2Prim (SFdiv prec emax (S754_finite negative p 0)
                          (S754_finite false q 0))
           | _ => nan
           end
  | N0 => if negative then neg_zero else zero
  end.

Definition Binary64 : JSNumber := {|
  number := float;
  NaN := nan;
  Infinity := infinity;
  ofDecimal := decimalToDouble;
  nadd := PrimFloat.add;
  nsub := PrimFloat.sub;
  nmul := PrimFloat.mul;
  ndiv := PrimFloat.div;
  nneg := PrimFloat.opp;
  nabs := PrimFloat.abs;
  ngt := fun x y => PrimFloat.ltb y x;
  nle := fun x y => PrimFloat.leb x y;
  ntruthy := fun x => negb (PrimFloat.eqb x zero || PrimFloat.is_nan x)
|}.


(** *** Values, [||], [+] and [>]

    The values that reach the accumulator of [getExpenseBreakdown]: a
    number, [undefined] (a missing property), an object or function
    (a property inherited from [Object.prototype]), or a string.  The only
    strings that arise are the text of such an object or function followed
    by the digits of a number ("[object Object]12.5"): they are never
    empty and never a numeric literal, and [VString] stands for any of
    them. *)
Section Values.
Context {Num : JSNumber}.

Inductive value :=
| VUndefined
| VNumber (x : number)
| VString
| VObject.

Definition ToBoolean (v : value) : bool :=
  match v with
  | VUndefined => false
  | VNumber x => ntruthy x
  | VString => true
  | VObject => true
  end.

Definition ToNumber (v : value) : number :=
  match v with
  | VNumber x => x
  | _ => NaN
  end.

(** [a || b] *)
Definition orElse (a b : value) : value := if ToBoolean a then a else b.

(** [a + b]: concatenation as soon as one side is a string or an object
    (whose primitive is its text), the sum of the numbers otherwise. *)
Definition add (a b : value) : value :=
  match a, b with
  | VString, _ | VObject, _ | _, VString | _, VObject => VString
  | _, _ => VNumber (ToNumber a + ToNumber b)%js
  end.

(** [a > y] for a number [y]. *)
Definition gt (a : value) (y : number) : bool := (ToNumber a >? y)%js.

(** *** Plain objects as dictionaries

    An object created by [{}]: its own properties in the order of their
    creation; what it does not own it inherits from [Object.prototype]. *)
Definition object := list (string * value).

Definition objectPrototypeMethods : list string :=
  [ "constructor"; "__defineGetter__"; "__defineSetter__";
    "hasOwnProperty"; "__lookupGetter__"; "__lookupSetter__";
    "isPrototypeOf"; "propertyIsEnumerable"; "toString"; "valueOf";
    "toLocaleString" ]%string.

Definition inherited (k : string) : bool :=
  String.eqb k "__proto__" || existsb (String.eqb k) objectPrototypeMethods.

Fixpoint getOwn (o : object) (k : string) : option value :=
  match o with
  | [] => None
  | (k', v) :: rest => if String.eqb k' k then Some v else getOwn rest k
  end.

(** [o[k]] *)
Definition get (o : object) (k : string) : value :=
  match getOwn o k with
  | Some v => v
  | None => if inherited k then VObject else VUndefined
  end.

Fixpoint setOwn (o : object) (k : string) (v : value) : object :=
  match o with
  | [] => [(k, v)]
  | (k', v') :: rest =>
      if String.eqb k' k then (k', v) :: rest else (k', v') :: setOwn rest k v
  end.

(** [o[k] = v].  The key [__proto__] is the accessor of
    [Object.prototype]: its setter creates no property (and ignores a
    value that is not an object). *)
Definition set (o : object) (k : string) (v : value) : object :=
  if String.eqb k "__proto__" then o else setOwn o k v.

(** A key that is an array index (a canonical numeral below 2^32 - 1). *)
Definition arrayIndex (k : string) : option N :=
  match k with
  | EmptyString => None
  | String c rest =>
      let '(n, _, r) := readDigits k 0%N 0%N in
      if negb (String.eqb r "") then None
      else if Ascii.eqb c "0" && negb (String.eqb rest "") then None
      else if (n <? 4294967295)%N then Some n else None
  end.

Fixpoint insertByIndex (i : N) (e : string * value)
    (l : list (N * (string * value))) : list (N * (string * value)) :=
  match l with
  | [] => [(i, e)]
  | (j, e') :: rest =>
      if (i <=? j)%N then (i, e) :: l else (j, e') :: insertByIndex i e rest
  end.

Fixpoint indexEntries (o : object) : list (N * (string * value)) :=
  match o with
  | [] => []
  | (k, v) :: rest =>
      match arrayIndex k with
      | Some i => insertByIndex i (k, v) (indexEntries rest)
      | None => indexEntries rest
      end
  end.

Definition namedEntries (o : object) : list (string * value) :=
  filter (fun e => match arrayIndex (fst e) with
                   | Some _ => false
                   | None => true
                   end) o.

(** [Object.entries(o)]: the array indices in ascending order, then the
    other keys in the order of their creation. *)
Definition entries (o : object) : list (string * value) :=
  map snd (indexEntries o) ++ namedEntries o.

(** [Object.values(o)] *)
Definition values (o : object) : list value := map snd (entries o).
End Values.

(** [s || d] for a string that may be [null]. *)
Definition orString (s : option string) (d : string) : string :=
  match s with
  | Some x => if String.eqb x "" then d else x
  | None => d
  end.

End JS.

(** ** The data model ([shared/schema.ts]) *)

Module Account.
Record t := {
  id : string;
  userId : string;
  type : string;                (* checking, savings, credit *)
  balance : option string;
  isActive : bool
}.
End Account.

Module Transaction.
Record t := {
  id : string;
  accountId : string;
  userId : string;
  amount : string;
  category : option string;
  date : Z;
  type : string                 (* income, expense, transfer *)
}.
End Transaction.

(** The rows of the tables [accounts] and [transactions] (the arrays of the
    same names in [MockStorage]). *)
Record Dataset := {
  accounts : list Account.t;
  transactions : list Transaction.t
}.

Section Results.
Context {Num : JS.JSNumber}.

Record FinancialSummary := {
  totalBalance : JS.number;
  monthlyBurn : JS.number;
  monthlyRevenue : JS.number;
  runwayMonths : JS.number
}.

Record ExpenseCategory := {
  category : string;
  amount : JS.value;
  percentage : JS.number
}.
End Results.

(** ** [server/storage.ts]: class [DatabaseStorage]

    [db.select().from(table).where(condition)] is the list of the rows of
    the table that satisfy the condition, in the order of the table. *)

Module DatabaseStorage.
Section Analytics.
Context {Num : JS.JSNumber} {tz : JS.TimeZone}.
Import JS.
Local Open Scope string_scope.

Variable db : Dataset.
Variable now : Z.               (* [new Date()] *)
Variable userId : string.

Definition accountsData : list Account.t :=
  filter (fun a => a.(Account.userId) =? userId) db.(accounts).

Definition totalBalanceOf (accountsData : list Account.t) : number :=
  fold_left
    (fun sum account =>
       (sum + parseFloat (orString account.(Account.balance) "0"))%js)
    accountsData (lit 0).

Definition startOfMonth : Z := newDate (getFullYear now) (getMonth now) 1.
Definition endOfMonth : Z := newDate (getFullYear now) (getMonth now + 1) 0.

Definition monthlyTransactions : list Transaction.t :=
  filter
    (fun t =>
       (t.(Transaction.userId) =? userId)
       && (startOfMonth <=? t.(Transaction.date))%Z
       && (t.(Transaction.date) <=? endOfMonth)%Z)
    db.(transactions).

Definition monthlyExpensesOf (monthlyTransactions : list Transaction.t)
  : number :=
  fold_left
    (fun sum t => (sum + nabs (parseFloat t.(Transaction.amount)))%js)
    (filter (fun t => t.(Transaction.type) =? "expense") monthlyTransactions)
    (lit 0).

Definition monthlyRevenueOf (monthlyTransactions : list Transaction.t)
  : number :=
  fold_left
    (fun sum t => (sum + parseFloat t.(Transaction.amount))%js)
    (filter (fun t => t.(Transaction.type) =? "income") monthlyTransactions)
    (lit 0).

Definition getFinancialSummary : FinancialSummary :=
  let totalBalance := totalBalanceOf accountsData in
  let monthlyExpenses := monthlyExpensesOf monthlyTransactions in
  let monthlyRevenue := monthlyRevenueOf monthlyTransactions in
  let monthlyBurn := (monthlyExpenses - monthlyRevenue)%js in
  let runwayMonths :=
    if (monthlyBurn >? lit 0)%js
    then (totalBalance / monthlyBurn)%js
    else lit 999 in
  {| totalBalance := totalBalance;
     monthlyBurn := monthlyBurn;
     monthlyRevenue := monthlyRevenue;
     runwayMonths := runwayMonths |}.

Definition expenseTransactions : list Transaction.t :=
  filter
    (fun t =>
       (t.(Transaction.userId) =? userId)
       && (t.(Transaction.type) =? "expense")
       && (startOfMonth <=? t.(Transaction.date))%Z
       && (t.(Transaction.date) <=? endOfMonth)%Z)
    db.(transactions).

Definition categoryTotalsOf (expenseTransactions : list Transaction.t)
  : object :=
  fold_left
    (fun acc transaction =>
       let category :=
         orString transaction.(Transaction.category) "Uncategorized" in
       let amount := nabs (parseFloat transaction.(Transaction.amount)) in
       set acc category
         (add (orElse (get acc category) (VNumber (lit 0))) (VNumber amount)))
    expenseTransactions [].

Definition totalExpensesOf (categoryTotals : object) : value :=
  fold_left (fun sum amount => add sum amount)
    (values categoryTotals) (VNumber (lit 0)).

Definition getExpenseBreakdown : list ExpenseCategory :=
  let categoryTotals := categoryTotalsOf expenseTransactions in
  let totalExpenses := totalExpensesOf categoryTotals in
  map
    (fun '(category, amount) =>
       {| category := category;
          amount := amount;
          percentage :=
            if gt totalExpenses (lit 0)
            then (ToNumber amount / ToNumber totalExpenses * lit 100)%js
            else lit 0 |})
    (entries categoryTotals).
End Analytics.
End DatabaseStorage.

(** ** [server/mock-storage.ts]: class [MockStorage]

    The arrays [this.accounts] and [this.transactions], filtered with
    [Array.prototype.filter].  [new Date(t.date)] is the date itself. *)

Module MockStorage.
Section Analytics.
Context {Num : JS.JSNumber} {tz : JS.TimeZone}.
Import JS.
Local Open Scope string_scope.

Variable this : Dataset.
Variable now : Z.               (* [new Date()] *)
Variable userId : string.

Definition dateOf (d : Z) : Z := d.

Definition userAccounts : list Account.t :=
  filter (fun a => a.(Account.userId) =? userId) this.(accounts).

Definition totalBalanceOf (userAccounts : list Account.t) : number :=
  fold_left
    (fun sum account =>
       (sum + parseFloat (orString account.(Account.balance) "0"))%js)
    userAccounts (lit 0).

Definition startOfMonth : Z := newDate (getFullYear now) (getMonth now) 1.
Definition endOfMonth : Z := newDate (getFullYear now) (getMonth now + 1) 0.

Definition monthlyTransactions : list Transaction.t :=
  filter
    (fun t =>
       (t.(Transaction.userId) =? userId)
       && (startOfMonth <=? dateOf t.(Transaction.date))%Z
       && (dateOf t.(Transaction.date) <=? endOfMonth)%Z)
    this.(transactions).

Definition monthlyExpensesOf (monthlyTransactions : list Transaction.t)
  : number :=
  fold_left
    (fun sum t => (sum + nabs (parseFloat t.(Transaction.amount)))%js)
    (filter (fun t => t.(Transaction.type) =? "expense") monthlyTransactions)
    (lit 0).

Definition monthlyRevenueOf (monthlyTransactions : list Transaction.t)
  : number :=
  fold_left
    (fun sum t => (sum + parseFloat t.(Transaction.amount))%js)
    (filter (fun t => t.(Transaction.type) =? "income") monthlyTransactions)
    (lit 0).

Definition getFinancialSummary : FinancialSummary :=
  let totalBalance := totalBalanceOf userAccounts in
  let monthlyExpenses := monthlyExpensesOf monthlyTransactions in
  let monthlyRevenue := monthlyRevenueOf monthlyTransactions in
  let monthlyBurn := (monthlyExpenses - monthlyRevenue)%js in
  let runwayMonths :=
    if (monthlyBurn >? lit 0)%js
    then (totalBalance / monthlyBurn)%js
    else lit 999 in
  {| totalBalance := totalBalance;
     monthlyBurn := monthlyBurn;
     monthlyRevenue := monthlyRevenue;
     runwayMonths := runwayMonths |}.

Definition expenseTransactions : list Transaction.t :=
  filter
    (fun t =>
       (t.(Transaction.userId) =? userId)
       && (t.(Transaction.type) =? "expense")
       && (startOfMonth <=? dateOf t.(Transaction.date))%Z
       && (dateOf t.(Transaction.date) <=? endOfMonth)%Z)
    this.(transactions).

Definition categoryTotalsOf (expenseTransactions : list Transaction.t)
  : object :=
  fold_left
    (fun acc transaction =>
       let category :=
         orString transaction.(Transaction.category) "Uncategorized" in
       let amount := nabs (parseFloat transaction.(Transaction.amount)) in
       set acc category
         (add (orElse (get acc category) (VNumber (lit 0))) (VNumber amount)))
    expenseTransactions [].

Definition totalExpensesOf (categoryTotals : object) : value :=
  fold_left (fun sum amount => add sum amount)
    (values categoryTotals) (VNumber (lit 0)).

Definition getExpenseBreakdown : list ExpenseCategory :=
  let categoryTotals := categoryTotalsOf expenseTransactions in
  let totalExpenses := totalExpensesOf categoryTotals in
  map
    (fun '(category, amount) =>
       {| category := category;
          amount := amount;
          percentage :=
            if gt totalExpenses (lit 0)
            then (ToNumber amount / ToNumber totalExpenses * lit 100)%js
            else lit 0 |})
    (entries categoryTotals).
End Analytics.
End MockStorage.

(** ** Vocabulary of the properties *)

Section Vocabulary.
Context {Num : JS.JSNumber} {tz : JS.TimeZone}.
Import JS.
Local Open Scope string_scope.

(** [d] lies in the calendar month of [now], in the time of the server. *)
Definition sameCalendarMonth (now d : Z) : Prop :=
  getFullYear d = getFullYear now /\ getMonth d = getMonth now.

Definition sameCalendarMonthb (now d : Z) : bool :=
  (getFullYear d =? getFullYear now)%Z && (getMonth d =? getMonth now)%Z.

Definition withAccounts (ds : Dataset) (l : list Account.t) : Dataset :=
  {| accounts := l; transactions := ds.(transactions) |}.

Definition withTransactions (ds : Dataset) (l : list Transaction.t)
  : Dataset :=
  {| accounts := ds.(accounts); transactions := l |}.

Definition withAmount (t : Transaction.t) (s : string) : Transaction.t :=
  {| Transaction.id := t.(Transaction.id);
     Transaction.accountId := t.(Transaction.accountId);
     Transaction.userId := t.(Transaction.userId);
     Transaction.amount := s;
     Transaction.category := t.(Transaction.category);
     Transaction.date := t.(Transaction.date);
     Transaction.type := t.(Transaction.type) |}.

Definition withActive (a : Account.t) (b : bool) : Account.t :=
  {| Account.id := a.(Account.id);
     Account.userId := a.(Account.userId);
     Account.type := a.(Account.type);
     Account.balance := a.(Account.balance);
     Account.isActive := b |}.

(** [parseFloat(account.balance || "0")] *)
Definition parsedBalance (a : Account.t) : number :=
  parseFloat (orString a.(Account.balance) "0").

(** The runway as the specification words it: the quotient exactly when
    the burn is positive, the sentinel exactly when it is not. *)
Definition runwayIff (s : FinancialSummary) : Prop :=
  (s.(runwayMonths) = (s.(totalBalance) / s.(monthlyBurn))%js
   <-> (s.(monthlyBurn) >? lit 0)%js = true)
  /\ (s.(runwayMonths) = lit 999
      <-> (s.(monthlyBurn) <=? lit 0)%js = true).

(** The runway as the conditional computes it. *)
Definition runwayByCases (s : FinancialSummary) : Prop :=
  ((s.(monthlyBurn) >? lit 0)%js = true
   -> s.(runwayMonths) = (s.(totalBalance) / s.(monthlyBurn))%js)
  /\ ((s.(monthlyBurn) >? lit 0)%js = false -> s.(runwayMonths) = lit 999)
  /\ ((s.(monthlyBurn) <=? lit 0)%js = true -> s.(runwayMonths) = lit 999)
  /\ (s.(runwayMonths) <> lit 999 -> (s.(monthlyBurn) >? lit 0)%js = true).

(** [t'] is [t] with the sign of its amount flipped: an expense whose
    amount parses to the opposite number. *)
Definition signFlipped (t t' : Transaction.t) : Prop :=
  t.(Transaction.type) = "expense"
  /\ t' = withAmount t t'.(Transaction.amount)
  /\ parseFloat t'.(Transaction.amount)
     = (- parseFloat t.(Transaction.amount))%js.

Definition sameOrSignFlipped (t t' : Transaction.t) : Prop :=
  t' = t \/ signFlipped t t'.

(** Neither an expense nor an income: a transfer, for one. *)
Definition neutral (t : Transaction.t) : Prop :=
  t.(Transaction.type) <> "expense" /\ t.(Transaction.type) <> "income".

(** The sum of a list of numbers, from the left. *)
Definition sumOf (l : list number) : number :=
  fold_left (fun sum x => (sum + x)%js) l (lit 0).

(** The reducer of [categoryTotals]: one expense added to the total of its
    category. *)
Definition addToCategory (acc : object) (transaction : Transaction.t)
  : object :=
  let category :=
    orString transaction.(Transaction.category) "Uncategorized" in
  let amount := nabs (parseFloat transaction.(Transaction.amount)) in
  set acc category
    (add (orElse (get acc category) (VNumber (lit 0))) (VNumber amount)).



(** The same rows, in whatever order. *)
Definition sameRows (ds ds' : Dataset) : Prop :=
  Permutation ds.(accounts) ds'.(accounts)
  /\ Permutation ds.(transactions) ds'.(transactions).

(** The two implementations as the specification words it: on the same
    collection of rows, equal summaries and breakdowns equal up to the
    order of the list. *)
Definition implementationsAgree : Prop :=
  forall (ds ds' : Dataset) (now : Z) (userId : string),
    sameRows ds ds' ->
    MockStorage.getFinancialSummary ds now userId
    = DatabaseStorage.getFinancialSummary ds' now userId
    /\ Permutation (MockStorage.getExpenseBreakdown ds now userId)
         (DatabaseStorage.getExpenseBreakdown ds' now userId).

(** The summary of a total balance, monthly expenses and a monthly
    revenue. *)
Definition summaryOf (totalBalance monthlyExpenses monthlyRevenue : number)
  : FinancialSummary :=
  let monthlyBurn := (monthlyExpenses - monthlyRevenue)%js in
  {| totalBalance := totalBalance;
     monthlyBurn := monthlyBurn;
     monthlyRevenue := monthlyRevenue;
     runwayMonths :=
       if (monthlyBurn >? lit 0)%js
       then (totalBalance / monthlyBurn)%js
       else lit 999 |}.

(** The numbers that the expenses and the incomes of a list of
    transactions contribute. *)
Definition expenseAmounts (l : list Transaction.t) : list number :=
  map (fun t => nabs (parseFloat t.(Transaction.amount)))
    (filter (fun t => t.(Transaction.type) =? "expense") l).

Definition incomeAmounts (l : list Transaction.t) : list number :=
  map (fun t => parseFloat t.(Transaction.amount))
    (filter (fun t => t.(Transaction.type) =? "income") l).

(** What the two implementations agree on when [MockStorage] holds the
    rows [ds] and the queries of [DatabaseStorage] return the rows [ds']:
    they select the same accounts, the same transactions of the month and
    the same expenses, each summary is the summary of the sums of the
    numbers of its rows, added in the order of its rows, and the
    breakdowns list the same categories; when the order is the same, the
    results are equal. *)
Definition agreeUpToRowOrder (ds ds' : Dataset) (now : Z) (userId : string)
  : Prop :=
  Permutation (MockStorage.userAccounts ds userId)
    (DatabaseStorage.accountsData ds' userId)
  /\ Permutation (MockStorage.monthlyTransactions ds now userId)
       (DatabaseStorage.monthlyTransactions ds' now userId)
  /\ Permutation (MockStorage.expenseTransactions ds now userId)
       (DatabaseStorage.expenseTransactions ds' now userId)
  /\ MockStorage.getFinancialSummary ds now userId
     = summaryOf
         (sumOf (map parsedBalance (MockStorage.userAccounts ds userId)))
         (sumOf (expenseAmounts
                   (MockStorage.monthlyTransactions ds now userId)))
         (sumOf (incomeAmounts
                   (MockStorage.monthlyTransactions ds now userId)))
  /\ DatabaseStorage.getFinancialSummary ds' now userId
     = summaryOf
         (sumOf (map parsedBalance (DatabaseStorage.accountsData ds' userId)))
         (sumOf (expenseAmounts
                   (DatabaseStorage.monthlyTransactions ds' now userId)))
         (sumOf (incomeAmounts
                   (DatabaseStorage.monthlyTransactions ds' now userId)))
  /\ Permutation
       (map category (MockStorage.getExpenseBreakdown ds now userId))
       (map category (DatabaseStorage.getExpenseBreakdown ds' now userId))
  /\ (ds' = ds ->
      MockStorage.getFinancialSummary ds now userId
      = DatabaseStorage.getFinancialSummary ds' now userId
      /\ MockStorage.getExpenseBreakdown ds now userId
         = DatabaseStorage.getExpenseBreakdown ds' now userId).
End Vocabulary.

(** Sample rows. *)
Module Sample.
Local Open Scope string_scope.

Definition account (user balance : string) (active : bool) : Account.t :=
  {| Account.id := "acc";
     Account.userId := user;
     Account.type := "checking";
     Account.balance := Some balance;
     Account.isActive := active |}.

Definition transaction (user type amount : string)
    (category : option string) (date : Z) : Transaction.t :=
  {| Transaction.id := "txn";
     Transaction.accountId := "acc";
     Transaction.userId := user;
     Transaction.amount := amount;
     Transaction.category := category;
     Transaction.date := date;
     Transaction.type := type |}.

(** 15 January 2024, 12:00 UTC, and 31 January 2024, 12:00 UTC. *)
Definition jan15 : Z := 1705320000000.
Definition jan31noon : Z := 1706702400000.

(** A balance of 999 and one expense of 1 this month. *)
Definition burnsOne : Dataset :=
  {| accounts := [account "u" "999.00" true];
     transactions :=
       [transaction "u" "expense" "1.00" (Some "Engineering") jan15] |}.

(** The scenario of the specification: two accounts, one expense and one
    income dated [d1] and [d2]. *)
Definition scenario (d1 d2 : Z) : Dataset :=
  {| accounts := [account "u" "45000.00" true;
                  account "u" "125000.00" true];
     transactions :=
       [transaction "u" "expense" "-2847.00" (Some "Engineering") d1;
        transaction "u" "income" "45000.00" (Some "Revenue") d2] |}.

(** One expense on the last day of the month of [jan15]. *)
Definition lastDay : Dataset :=
  {| accounts := [];
     transactions :=
       [transaction "u" "expense" "100.00" (Some "Engineering") jan31noon] |}.


(** One expense whose category is the text [__proto__]. *)
Definition protoCategory : Dataset :=
  {| accounts := [];
     transactions :=
       [transaction "u" "expense" "100.00" (Some "__proto__") jan15] |}.

(** Expenses of 0.10, 0.20 and 0.30 in three categories, and the same
    rows in the opposite order. *)
Definition tenths : Dataset :=
  {| accounts := [];
     transactions :=
       [transaction "u" "expense" "0.10" (Some "a") jan15;
        transaction "u" "expense" "0.20" (Some "b") jan15;
        transaction "u" "expense" "0.30" (Some "c") jan15] |}.

Definition tenthsReversed : Dataset :=
  {| accounts := []; transactions := rev tenths.(transactions) |}.

End Sample.

(** ** Arrays ([Array.prototype]) *)

Module JSArray.

(** [l.find(p)]: the first element that satisfies [p]. *)
Fixpoint find {A : Type} (p : A -> bool) (l : list A) : option A :=
  match l with
  | [] => None
  | x :: rest => if p x then Some x else find p rest
  end.

(** [l.findIndex(p)]: the index of that element; [None] stands for -1. *)
Fixpoint findIndex {A : Type} (p : A -> bool) (l : list A) : option nat :=
  match l with
  | [] => None
  | x :: rest =>
      if p x then Some 0%nat
      else match findIndex p rest with
           | Some i => Some (S i)
           | None => None
           end
  end.

(** [l.splice(index, 1)]: the array without the element at [index]. *)
Fixpoint splice1 {A : Type} (index : nat) (l : list A) : list A :=
  match l, index with
  | [], _ => []
  | _ :: rest, O => rest
  | x :: rest, S i => x :: splice1 i rest
  end.

(** [l[index] = v] for an index within the array. *)
Fixpoint assign {A : Type} (index : nat) (v : A) (l : list A) : list A :=
  match l, index with
  | [], _ => []
  | _ :: rest, O => v :: rest
  | x :: rest, S i => x :: assign i v rest
  end.

(** The end argument of [slice], a number: an integer or NaN. *)
Inductive index := NaNIndex | Index (n : Z).

(** [l.slice(0, end)]: NaN counts as 0, a negative end counts from the
    end of the array, and the end is clamped to the array. *)
Definition slice0 {A : Type} (l : list A) (last : index) : list A :=
  let len := Z.of_nat (List.length l) in
  let k := match last with
           | NaNIndex => 0
           | Index n => if n <? 0 then Z.max (len + n) 0 else Z.min n len
           end in
  firstn (Z.to_nat k) l.

(** [l.sort(compare)], for a comparison that returns a number, negative
    when its first argument goes first.  The sort is stable: elements that
    compare as equal keep their order. *)
Fixpoint insertSorted {A : Type} (compare : A -> A -> Z) (x : A)
    (l : list A) : list A :=
  match l with
  | [] => [x]
  | y :: rest =>
      if compare x y <=? 0 then x :: l
      else y :: insertSorted compare x rest
  end.

Fixpoint sort {A : Type} (compare : A -> A -> Z) (l : list A) : list A :=
  match l with
  | [] => []
  | x :: rest => insertSorted compare x (sort compare rest)
  end.

End JSArray.

(** ** [server/mock-storage.ts]: the arrays of [MockStorage] and the
    methods that create, read, update and delete their records

    The identifier that [nanoid()] returns and the instant of
    [new Date()] are arguments.  A method that throws returns [Thrown];
    the arrays are then as they were.  The arrays of users, companies,
    forecasts and reports, which these methods do not touch, are left
    out. *)

Module MockStore.

Inductive outcome (A : Type) :=
| Returned (a : A)
| Thrown (message : string).
Arguments Returned {A} a.
Arguments Thrown {A} message.

(** [s || null] for a text that may be missing. *)
Definition orNull (s : option string) : option string :=
  match s with
  | Some x => if String.eqb x "" then None else Some x
  | None => None
  end.

(** [b !== undefined ? b : true] *)
Definition definedOrTrue (b : option bool) : bool :=
  match b with Some x => x | None => true end.

(** [b || false] *)
Definition orFalse (b : option bool) : bool :=
  match b with Some x => x | None => false end.

(** A field of [updates] in [{ ...record, ...updates }]: present or not. *)
Definition spread {A : Type} (old : A) (update : option A) : A :=
  match update with Some v => v | None => old end.

(** *** Accounts *)

Record storedAccount := {
  account_id : string;
  account_name : string;
  account_type : string;
  account_userId : string;
  account_balance : string;
  account_currency : string;
  account_bankName : option string;
  account_isActive : bool;
  account_externalId : option string;
  account_accessToken : option string;
  account_createdAt : Z
}.

(** The argument of [createAccount]. *)
Record insertAccount := {
  new_account_name : string;
  new_account_type : string;
  new_account_userId : string;
  new_account_balance : option string;
  new_account_currency : option string;
  new_account_bankName : option string;
  new_account_isActive : option bool;
  new_account_externalId : option string;
  new_account_accessToken : option string
}.

(** The argument [updates] of [updateAccount]: any of the fields. *)
Record partialAccount := {
  set_account_id : option string;
  set_account_name : option string;
  set_account_type : option string;
  set_account_userId : option string;
  set_account_balance : option string;
  set_account_currency : option string;
  set_account_bankName : option (option string);
  set_account_isActive : option bool;
  set_account_externalId : option (option string);
  set_account_accessToken : option (option string);
  set_account_createdAt : option Z
}.

(** *** Transactions *)

Record storedTransaction := {
  transaction_id : string;
  transaction_accountId : string;
  transaction_userId : string;
  transaction_amount : string;
  transaction_description : string;
  transaction_category : option string;
  transaction_subcategory : option string;
  transaction_date : Z;
  transaction_type : string;
  transaction_externalId : option string;
  transaction_isRecurring : bool;
  transaction_tags : option (list string);
  transaction_createdAt : Z
}.

Record insertTransaction := {
  new_transaction_accountId : string;
  new_transaction_userId : string;
  new_transaction_amount : string;
  new_transaction_description : string;
  new_transaction_category : option string;
  new_transaction_subcategory : option string;
  new_transaction_date : Z;
  new_transaction_type : string;
  new_transaction_externalId : option string;
  new_transaction_isRecurring : option bool;
  new_transaction_tags : option (list string)
}.

Record partialTransaction := {
  set_transaction_id : option string;
  set_transaction_accountId : option string;
  set_transaction_userId : option string;
  set_transaction_amount : option string;
  set_transaction_description : option string;
  set_transaction_category : option (option string);
  set_transaction_subcategory : option (option string);
  set_transaction_date : option Z;
  set_transaction_type : option string;
  set_transaction_externalId : option (option string);
  set_transaction_isRecurring : option bool;
  set_transaction_tags : option (option (list string));
  set_transaction_createdAt : option Z
}.

(** *** Budgets *)

Record storedBudget := {
  budget_id : string;
  budget_userId : string;
  budget_category : string;
  budget_monthlyLimit : string;
  budget_currentSpent : string;
  budget_alertThreshold : Z;
  budget_isActive : bool;
  budget_createdAt : Z
}.

Record insertBudget := {
  new_budget_userId : string;
  new_budget_category : string;
  new_budget_monthlyLimit : string;
  new_budget_currentSpent : option string;
  new_budget_alertThreshold : option Z;
  new_budget_isActive : option bool
}.

(** *** The arrays *)

Record state := {
  accounts : list storedAccount;
  transactions : list storedTransaction;
  budgets : list storedBudget
}.

Definition withAccounts (this : state) (l : list storedAccount) : state :=
  {| accounts := l;
     transactions := this.(transactions);
     budgets := this.(budgets) |}.

Definition withTransactions (this : state) (l : list storedTransaction) : state :=
  {| accounts := this.(accounts);
     transactions := l;
     budgets := this.(budgets) |}.

Definition withBudgets (this : state) (l : list storedBudget) : state :=
  {| accounts := this.(accounts);
     transactions := this.(transactions);
     budgets := l |}.

(** *** Array methods used by the store

    [updateFirst p f l] is the sequence
    [index = l.findIndex(p); l[index] = f(l[index]); return l[index]]
    for an index other than -1: the new element and the new array, and
    [None] when [findIndex] returns -1. *)
Fixpoint updateFirst {A : Type} (p : A -> bool) (f : A -> A) (l : list A)
  : option (A * list A) :=
  match l with
  | [] => None
  | x :: rest =>
      if p x then Some (f x, f x :: rest)
      else match updateFirst p f rest with
           | Some (y, rest') => Some (y, x :: rest')
           | None => None
           end
  end.

(** [index = l.findIndex(p); if (index !== -1) l.splice(index, 1)] *)
Definition removeFirst {A : Type} (p : A -> bool) (l : list A) : list A :=
  match JSArray.findIndex p l with
  | Some index => JSArray.splice1 index l
  | None => l
  end.

(** *** Account methods *)

Definition getAccountsByUserId (this : state) (userId : string)
  : list storedAccount :=
  filter (fun a => String.eqb a.(account_userId) userId) this.(accounts).

Definition getAccount (this : state) (id : string) : option storedAccount :=
  JSArray.find (fun a => String.eqb a.(account_id) id) this.(accounts).

Definition createAccount (nanoid : string) (now : Z) (this : state)
    (account : insertAccount) : storedAccount * state :=
  let newAccount :=
    {| account_id := nanoid;
       account_name := account.(new_account_name);
       account_type := account.(new_account_type);
       account_userId := account.(new_account_userId);
       account_balance := JS.orString account.(new_account_balance) "0";
       account_currency := JS.orString account.(new_account_currency) "USD";
       account_bankName := orNull account.(new_account_bankName);
       account_isActive := definedOrTrue account.(new_account_isActive);
       account_externalId := orNull account.(new_account_externalId);
       account_accessToken := orNull account.(new_account_accessToken);
       account_createdAt := now |} in
  (newAccount, withAccounts this (this.(accounts) ++ [newAccount])).

(** [{ ...old, ...updates }] *)
Definition mergeAccount (updates : partialAccount) (old : storedAccount) : storedAccount :=
  {| account_id := spread old.(account_id) updates.(set_account_id);
     account_name := spread old.(account_name) updates.(set_account_name);
     account_type := spread old.(account_type) updates.(set_account_type);
     account_userId :=
       spread old.(account_userId) updates.(set_account_userId);
     account_balance :=
       spread old.(account_balance) updates.(set_account_balance);
     account_currency :=
       spread old.(account_currency) updates.(set_account_currency);
     account_bankName :=
       spread old.(account_bankName) updates.(set_account_bankName);
     account_isActive :=
       spread old.(account_isActive) updates.(set_account_isActive);
     account_externalId :=
       spread old.(account_externalId) updates.(set_account_externalId);
     account_accessToken :=
       spread old.(account_accessToken) updates.(set_account_accessToken);
     account_createdAt :=
       spread old.(account_createdAt) updates.(set_account_createdAt) |}.

Definition updateAccount (this : state) (id : string)
    (updates : partialAccount) : outcome (storedAccount * state) :=
  match updateFirst (fun a => String.eqb a.(account_id) id)
          (mergeAccount updates) this.(accounts) with
  | None => Thrown "Account not found"
  | Some (updated, l) => Returned (updated, withAccounts this l)
  end.

Definition deleteAccount (this : state) (id : string) : state :=
  withAccounts this
    (removeFirst (fun a => String.eqb a.(account_id) id) this.(accounts)).

(** *** Transaction methods *)

(** [new Date(b.date).getTime() - new Date(a.date).getTime()] *)
Definition newestFirst (a b : storedTransaction) : Z :=
  b.(transaction_date) - a.(transaction_date).

(** Newest first: no element is older than one that follows it. *)
Definition newestFirstOrder (a b : storedTransaction) : Prop :=
  b.(transaction_date) <= a.(transaction_date).

(** [getTransactionsByUserId(userId, limit = 50)]: [None] is a call
    without the second argument. *)
Definition getTransactionsByUserId (this : state) (userId : string)
    (limit : option JSArray.index) : list storedTransaction :=
  let limit := match limit with
               | Some n => n
               | None => JSArray.Index 50
               end in
  JSArray.slice0
    (JSArray.sort newestFirst
       (filter (fun t => String.eqb t.(transaction_userId) userId)
          this.(transactions)))
    limit.

Definition getTransactionsByAccountId (this : state) (accountId : string)
  : list storedTransaction :=
  JSArray.sort newestFirst
    (filter (fun t => String.eqb t.(transaction_accountId) accountId)
       this.(transactions)).

Definition getTransaction (this : state) (id : string) : option storedTransaction :=
  JSArray.find (fun t => String.eqb t.(transaction_id) id)
    this.(transactions).

Definition createTransaction (nanoid : string) (now : Z) (this : state)
    (transaction : insertTransaction) : storedTransaction * state :=
  let newTransaction :=
    {| transaction_id := nanoid;
       transaction_accountId := transaction.(new_transaction_accountId);
       transaction_userId := transaction.(new_transaction_userId);
       transaction_amount := transaction.(new_transaction_amount);
       transaction_description := transaction.(new_transaction_description);
       transaction_category := orNull transaction.(new_transaction_category);
       transaction_subcategory :=
         orNull transaction.(new_transaction_subcategory);
       transaction_date := transaction.(new_transaction_date);
       transaction_type := transaction.(new_transaction_type);
       transaction_externalId :=
         orNull transaction.(new_transaction_externalId);
       transaction_isRecurring :=
         orFalse transaction.(new_transaction_isRecurring);
       transaction_tags := transaction.(new_transaction_tags);
       transaction_createdAt := now |} in
  (newTransaction,
   withTransactions this (this.(transactions) ++ [newTransaction])).

Definition mergeTransaction (updates : partialTransaction)
    (old : storedTransaction) : storedTransaction :=
  {| transaction_id :=
       spread old.(transaction_id) updates.(set_transaction_id);
     transaction_accountId :=
       spread old.(transaction_accountId) updates.(set_transaction_accountId);
     transaction_userId :=
       spread old.(transaction_userId) updates.(set_transaction_userId);
     transaction_amount :=
       spread old.(transaction_amount) updates.(set_transaction_amount);
     transaction_description :=
       spread old.(transaction_description)
         updates.(set_transaction_description);
     transaction_category :=
       spread old.(transaction_category) updates.(set_transaction_category);
     transaction_subcategory :=
       spread old.(transaction_subcategory)
         updates.(set_transaction_subcategory);
     transaction_date :=
       spread old.(transaction_date) updates.(set_transaction_date);
     transaction_type :=
       spread old.(transaction_type) updates.(set_transaction_type);
     transaction_externalId :=
       spread old.(transaction_externalId)
         updates.(set_transaction_externalId);
     transaction_isRecurring :=
       spread old.(transaction_isRecurring)
         updates.(set_transaction_isRecurring);
     transaction_tags :=
       spread old.(transaction_tags) updates.(set_transaction_tags);
     transaction_createdAt :=
       spread old.(transaction_createdAt)
         updates.(set_transaction_createdAt) |}.

Definition updateTransaction (this : state) (id : string)
    (updates : partialTransaction) : outcome (storedTransaction * state) :=
  match updateFirst (fun t => String.eqb t.(transaction_id) id)
          (mergeTransaction updates) this.(transactions) with
  | None => Thrown "Transaction not found"
  | Some (updated, l) => Returned (updated, withTransactions this l)
  end.

(** [ids.forEach(id => ...)]: an identifier that is not found is skipped. *)
Definition bulkUpdateTransactions (this : state) (ids : list string)
    (updates : partialTransaction) : list storedTransaction * state :=
  let '(updatedTransactions, l) :=
    fold_left
      (fun '(updatedTransactions, l) id =>
         match updateFirst (fun t => String.eqb t.(transaction_id) id)
                 (mergeTransaction updates) l with
         | Some (updated, l') => (updatedTransactions ++ [updated], l')
         | None => (updatedTransactions, l)
         end)
      ids ([], this.(transactions)) in
  (updatedTransactions, withTransactions this l).

Definition deleteTransaction (this : state) (id : string) : state :=
  withTransactions this
    (removeFirst (fun t => String.eqb t.(transaction_id) id)
       this.(transactions)).

(** *** Budget methods *)

Definition getBudgetsByUserId (this : state) (userId : string) : list storedBudget :=
  filter (fun b => String.eqb b.(budget_userId) userId) this.(budgets).

Definition getBudget (this : state) (id : string) : option storedBudget :=
  JSArray.find (fun b => String.eqb b.(budget_id) id) this.(budgets).

(** [budget.alertThreshold || 80]: a threshold of 0 is falsy. *)
Definition orEighty (n : option Z) : Z :=
  match n with
  | Some x => if x =? 0 then 80 else x
  | None => 80
  end.

Definition createBudget (nanoid : string) (now : Z) (this : state)
    (budget : insertBudget) : storedBudget * state :=
  let newBudget :=
    {| budget_id := nanoid;
       budget_userId := budget.(new_budget_userId);
       budget_category := budget.(new_budget_category);
       budget_monthlyLimit := budget.(new_budget_monthlyLimit);
       budget_currentSpent := JS.orString budget.(new_budget_currentSpent) "0";
       budget_alertThreshold := orEighty budget.(new_budget_alertThreshold);
       budget_isActive := definedOrTrue budget.(new_budget_isActive);
       budget_createdAt := now |} in
  (newBudget, withBudgets this (this.(budgets) ++ [newBudget])).

Definition deleteBudget (this : state) (id : string) : state :=
  withBudgets this
    (removeFirst (fun b => String.eqb b.(budget_id) id) this.(budgets)).

(** *** What the analytics read of the arrays *)

Definition accountRow (a : storedAccount) : Account.t :=
  {| Account.id := a.(account_id);
     Account.userId := a.(account_userId);
     Account.type := a.(account_type);
     Account.balance := Some a.(account_balance);
     Account.isActive := a.(account_isActive) |}.

Definition transactionRow (t : storedTransaction) : Transaction.t :=
  {| Transaction.id := t.(transaction_id);
     Transaction.accountId := t.(transaction_accountId);
     Transaction.userId := t.(transaction_userId);
     Transaction.amount := t.(transaction_amount);
     Transaction.category := t.(transaction_category);
     Transaction.date := t.(transaction_date);
     Transaction.type := t.(transaction_type) |}.

Definition dataset (this : state) : Dataset :=
  Build_Dataset (map accountRow this.(accounts))
    (map transactionRow this.(transactions)).

End MockStore.

(** ** [server/routes.ts]: the route table *)

Module Routes.

Inductive method := GET | POST | PUT | DELETE.

Definition method_eqb (a b : method) : bool :=
  match a, b with
  | GET, GET | POST, POST | PUT, PUT | DELETE, DELETE => true
  | _, _ => false
  end.

(** The handlers, named by method and path. *)
Inductive handler :=
| PostAuthRegister | PostAuthLogin | PostAuthLogout | GetAuthMe
| GetCompany | PostCompany
| GetAccounts | PostAccounts | PutAccount | DeleteAccount
| GetTransactions | PostTransactions | PutTransaction | PutTransactionsBulk
| GetBudgets | PostBudgets
| GetFinancialSummary | GetExpenseBreakdown
| PostConnectAccount | PostAccountSync.

(** A segment of a route path: literal text, or a parameter [:name]. *)
Inductive segment := Literal (text : string) | Param (name : string).

(** The calls [app.get], [app.post], [app.put] and [app.delete] of
    [registerRoutes], in the order in which they are made. *)
Definition routes : list (method * list segment * handler) :=
  [ (POST, [Literal "api"; Literal "auth"; Literal "register"],
     PostAuthRegister);
    (POST, [Literal "api"; Literal "auth"; Literal "login"], PostAuthLogin);
    (POST, [Literal "api"; Literal "auth"; Literal "logout"], PostAuthLogout);
    (GET, [Literal "api"; Literal "auth"; Literal "me"], GetAuthMe);
    (GET, [Literal "api"; Literal "company"], GetCompany);
    (POST, [Literal "api"; Literal "company"], PostCompany);
    (GET, [Literal "api"; Literal "accounts"], GetAccounts);
    (POST, [Literal "api"; Literal "accounts"], PostAccounts);
    (PUT, [Literal "api"; Literal "accounts"; Param "id"], PutAccount);
    (DELETE, [Literal "api"; Literal "accounts"; Param "id"], DeleteAccount);
    (GET, [Literal "api"; Literal "transactions"], GetTransactions);
    (POST, [Literal "api"; Literal "transactions"], PostTransactions);
    (PUT, [Literal "api"; Literal "transactions"; Param "id"],
     PutTransaction);
    (PUT, [Literal "api"; Literal "transactions"; Literal "bulk"],
     PutTransactionsBulk);
    (GET, [Literal "api"; Literal "budgets"], GetBudgets);
    (POST, [Literal "api"; Literal "budgets"], PostBudgets);
    (GET, [Literal "api"; Literal "financial-summary"], GetFinancialSummary);
    (GET, [Literal "api"; Literal "expense-breakdown"], GetExpenseBreakdown);
    (POST, [Literal "api"; Literal "connect-account"], PostConnectAccount);
    (POST, [Literal "api"; Literal "accounts"; Param "id"; Literal "sync"],
     PostAccountSync) ]%string.

(** Matching as Express does it by default: segment by segment, a
    parameter takes one segment that is not empty, literal text is
    compared without regard to case, and one slash at the end of the path
    is allowed. *)
Definition lowerAscii (c : ascii) : ascii :=
  let n := N_of_ascii c in
  if ((65 <=? n) && (n <=? 90))%N then ascii_of_N (n + 32) else c.

Fixpoint lower (s : string) : string :=
  match s with
  | EmptyString => EmptyString
  | String c rest => String (lowerAscii c) (lower rest)
  end.

(** The segments of a path: the texts between its slashes. *)
Fixpoint splitPath (path : string) (current : string) : list string :=
  match path with
  | EmptyString => [current]
  | String c rest =>
      if Ascii.eqb c "/" then current :: splitPath rest EmptyString
      else splitPath rest (current ++ String c EmptyString)%string
  end.

Fixpoint matchSegments (pattern : list segment) (path : list string)
  : option (list (string * string)) :=
  match pattern, path with
  | [], [] => Some []
  | [], [last] => if String.eqb last "" then Some [] else None
  | Literal text :: pattern', s :: path' =>
      if String.eqb (lower text) (lower s) then matchSegments pattern' path'
      else None
  | Param name :: pattern', s :: path' =>
      if String.eqb s "" then None
      else match matchSegments pattern' path' with
           | Some params => Some ((name, s) :: params)
           | None => None
           end
  | _, _ => None
  end.

(** A path starts with a slash: its first segment is empty. *)
Definition matchPath (pattern : list segment) (path : string)
  : option (list (string * string)) :=
  match splitPath path EmptyString with
  | first :: rest =>
      if String.eqb first "" then matchSegments pattern rest else None
  | [] => None
  end.

(** The first route, in the order of registration, whose method and path
    match the request: its handler and the parameters of the path.  No
    handler passes the request on, so no later route sees it. *)
Fixpoint dispatchIn (table : list (method * list segment * handler))
    (m : method) (path : string)
  : option (handler * list (string * string)) :=
  match table with
  | [] => None
  | (m', pattern, h) :: rest =>
      if method_eqb m' m
      then match matchPath pattern path with
           | Some params => Some (h, params)
           | None => dispatchIn rest m path
           end
      else dispatchIn rest m path
  end.

Definition dispatch (m : method) (path : string)
  : option (handler * list (string * string)) :=
  dispatchIn routes m path.

End Routes.

(** ** [client/src/pages/forecasting.tsx] and [client/src/pages/budget.tsx] *)

Module Client.
Section Pages.
Context {Num : JS.JSNumber}.
Import JS.

(** [x >= y] *)
Definition nge (x y : number) : bool := (y <=? x)%js.

(** [calculateRunway]; [None] is the summary that has not arrived. *)
Definition calculateRunway (financialSummary : option FinancialSummary)
    (revenueGrowth burnRate : number) : number :=
  match financialSummary with
  | None => lit 0
  | Some s =>
      let currentBalance := s.(totalBalance) in
      let currentBurn := s.(monthlyBurn) in
      let currentRevenue := s.(monthlyRevenue) in
      let newRevenue :=
        (currentRevenue * (lit 1 + revenueGrowth / lit 100))%js in
      let newBurn := (currentBurn * (lit 1 + burnRate / lit 100))%js in
      let netBurn := (newBurn - newRevenue)%js in
      if (netBurn >? lit 0)%js then (currentBalance / netBurn)%js
      else lit 999
  end.

(** [getBudgetStatus] and [getProgressColor] of the budget page. *)
Record budgetStatus := { status : string; color : string }.

Definition getBudgetStatus (spent limit alertThreshold : number)
  : budgetStatus :=
  let percentage := (spent / limit * lit 100)%js in
  if nge percentage (lit 100)
  then {| status := "over"; color := "destructive" |}
  else if nge percentage alertThreshold
  then {| status := "warning"; color := "warning" |}
  else {| status := "good"; color := "success" |}.

Definition getProgressColor (percentage alertThreshold : number) : string :=
  if nge percentage (lit 100) then "bg-destructive"
  else if nge percentage alertThreshold then "bg-warning"
  else "bg-success".

(** An integer of a record as a number. *)
Definition numberOfZ (z : Z) : number := ofDecimal (z <? 0) (Z.abs_N z) 0.

(** [getSpentAmount]: the amount of the entry of the breakdown with that
    category, 0 when there is none. *)
Definition getSpentAmount (expenseBreakdown : list ExpenseCategory)
    (wanted : string) : value :=
  match JSArray.find (fun e => String.eqb e.(category) wanted)
          expenseBreakdown with
  | Some expense => expense.(amount)
  | None => VNumber (lit 0)
  end.

(** [alertBudgets] *)
Definition alertBudgets (budgets : list MockStore.storedBudget)
    (expenseBreakdown : list ExpenseCategory) : list MockStore.storedBudget :=
  filter
    (fun budget =>
       let spent :=
         getSpentAmount expenseBreakdown budget.(MockStore.budget_category) in
       let percentage :=
         (ToNumber spent / parseFloat budget.(MockStore.budget_monthlyLimit)
          * lit 100)%js in
       nge percentage (numberOfZ budget.(MockStore.budget_alertThreshold)))
    budgets.

(** The status shown on the card of a budget. *)
Definition cardStatus (expenseBreakdown : list ExpenseCategory)
    (budget : MockStore.storedBudget) : budgetStatus :=
  let spent :=
    getSpentAmount expenseBreakdown budget.(MockStore.budget_category) in
  let limit := parseFloat budget.(MockStore.budget_monthlyLimit) in
  getBudgetStatus (ToNumber spent) limit
    (numberOfZ budget.(MockStore.budget_alertThreshold)).
End Pages.
End Client.

(** * Properties *)

Unset Implicit Arguments.

(** The calendar is never unfolded by simplification. *)
Arguments JS.newDate : simpl never.
Arguments JS.getFullYear : simpl never.
Arguments JS.getMonth : simpl never.
Arguments DatabaseStorage.startOfMonth : simpl never.
Arguments DatabaseStorage.endOfMonth : simpl never.
Arguments MockStorage.startOfMonth : simpl never.
Arguments MockStorage.endOfMonth : simpl never.
Arguments JS.parseFloat : simpl never.
Arguments JS.lit : simpl never.
Opaque JS.newDate JS.getFullYear JS.getMonth.
(** ** The laws of the arithmetic *)

Module Laws.
Import JS.

Lemma SFcompare_Lt_Gt (a b : spec_float) :
  SFcompare a b = Some Lt -> SFcompare b a = Some Gt.
Proof.
  destruct a as [sa | sa | | sa ma ea], b as [sb | sb | | sb mb eb];
    simpl; try discriminate;
    try (destruct sa; discriminate || reflexivity);
    try (destruct sb; discriminate || reflexivity);
    try (destruct sa, sb; discriminate || reflexivity).
  destruct sa, sb; try discriminate; try reflexivity;
    rewrite (Z.compare_antisym eb ea);
    destruct (eb ?= ea)%Z; simpl; try discriminate; try reflexivity;
    pose proof (Pos.compare_cont_antisym mb ma Eq) as A; simpl in A;
    rewrite <- A;
    destruct (Pos.compare_cont Eq mb ma); simpl; discriminate || reflexivity.
Qed.

Lemma Binary64_laws : JSNumberLaws Binary64.
Proof.
  split.
  - intros x y. cbn. rewrite ltb_spec, leb_spec. unfold SFltb, SFleb.
    destruct (SFcompare (Prim2SF y) (Prim2SF x)) as [[ | | ] | ] eqn:E;
      try discriminate.
    intros _. now rewrite (SFcompare_Lt_Gt _ _ E).
  - intros x. cbn. apply Prim2SF_inj. rewrite !abs_spec, opp_spec.
    now destruct (Prim2SF x).
  - reflexivity.
  - reflexivity.
Qed.

(** Two operations of binary64 that do not round: the product by 1 and
    the difference with 0. *)
Lemma shr_fexp_canonical (m : positive) (e : Z) :
  canonical_mantissa prec emax m e = true ->
  shr_fexp prec emax (Zpos m) e loc_Exact
  = ({| shr_m := Zpos m; shr_r := false; shr_s := false |}, e).
Proof.
  unfold canonical_mantissa. intros C. apply Z.eqb_eq in C.
  unfold shr_fexp. cbn [Zdigits2 shr_record_of_loc]. rewrite C, Z.sub_diag.
  reflexivity.
Qed.

Lemma SF64mul_1_r (x : spec_float) :
  valid_binary x = true ->
  SF64mul x (S754_finite false 4503599627370496 (-52)) = x.
Proof.
  destruct x as [s | s | | s m e];
    unfold SF64mul, valid_binary; cbn [SFmul SpecFloat.valid_binary];
    intros V; rewrite ?xorb_false_r; try reflexivity.
  unfold bounded in V. apply andb_prop in V. destruct V as [C B].
  rewrite Pos.mul_comm. cbn [Pos.mul].
  unfold binary_round_aux.
  match goal with
  | |- context [shr_fexp prec emax (Zpos ?p) (e + -52) loc_Exact] =>
      assert (S : shr_fexp prec emax (Zpos p) (e + -52) loc_Exact
                  = ({| shr_m := Zpos m; shr_r := false; shr_s := false |},
                     e))
  end.
  { unfold shr_fexp. cbn [Zdigits2 digits2_pos shr_record_of_loc].
    unfold canonical_mantissa in C. apply Z.eqb_eq in C.
    set (d := digits2_pos m) in *.
    match goal with
    | |- context [fexp prec emax (Zpos ?q + (e + -52))] =>
        replace (Zpos q + (e + -52)) with (Zpos d + e) by lia
    end.
    rewrite C. replace (e - (e + -52)) with 52 by lia.
    unfold shr. apply f_equal2; [ reflexivity | lia ]. }
  rewrite S. cbn [shr_m loc_of_shr_record round_nearest_even].
  rewrite (shr_fexp_canonical m e C). cbn [shr_m]. now rewrite B.
Qed.

Lemma mul_1_r (x : float) : (x * 1)%float = x.
Proof.
  apply Prim2SF_inj. rewrite mul_spec.
  change (Prim2SF 1) with (S754_finite false 4503599627370496 (-52)).
  apply SF64mul_1_r. apply Prim2SF_valid.
Qed.

Lemma sub_0_r (x : float) : (x - 0)%float = x.
Proof.
  apply Prim2SF_inj. rewrite sub_spec.
  change (Prim2SF 0) with (S754_zero false).
  destruct (Prim2SF x) as [[ | ] | | | ]; reflexivity.
Qed.










End Laws.

(** ** Lists *)

Module Lists.
Lemma fold_left_map {A B C} (f : A -> C -> A) (g : B -> C) (l : list B) (a : A) :
  fold_left f (map g l) a = fold_left (fun x y => f x (g y)) l a.
Proof. revert a. induction l as [ | b l IH]; intros a; simpl; auto. Qed.

Lemma fold_left_ext_in {A B} (f g : A -> B -> A) (l : list B) (a : A) :
  (forall x y, In y l -> f x y = g x y) -> fold_left f l a = fold_left g l a.
Proof.
  revert a. induction l as [ | b l IH]; intros a H; simpl; [ reflexivity | ].
  rewrite (H a b) by (left; reflexivity). apply IH.
  intros x y Hy. apply H. now right.
Qed.

Lemma fold_left_Forall2 {A B} (R : B -> B -> Prop) (f : A -> B -> A)
    (l l' : list B) (a : A) :
  (forall x y y', R y y' -> f x y = f x y') ->
  Forall2 R l l' -> fold_left f l a = fold_left f l' a.
Proof.
  intros H HR. revert a. induction HR as [ | y y' l l' Hy _ IH]; intros a; simpl.
  - reflexivity.
  - rewrite (H a y y' Hy). apply IH.
Qed.

Lemma filter_Forall2 {A} (R : A -> A -> Prop) (p : A -> bool) (l l' : list A) :
  (forall x x', R x x' -> p x = p x') ->
  Forall2 R l l' -> Forall2 R (filter p l) (filter p l').
Proof.
  intros H HR. induction HR as [ | x x' l l' Hx _ IH]; simpl.
  - constructor.
  - rewrite <- (H x x' Hx). destruct (p x); [ constructor | ]; assumption.
Qed.

Lemma filter_none {A} (p : A -> bool) (l : list A) :
  (forall x, In x l -> p x = false) -> filter p l = [].
Proof.
  induction l as [ | a l IH]; intros H; simpl; [ reflexivity | ].
  rewrite (H a) by (left; reflexivity). apply IH. intros x Hx. apply H. now right.
Qed.

Lemma filter_insert_false {A} (p : A -> bool) (pre post : list A) (x : A) :
  p x = false -> filter p (pre ++ x :: post) = filter p (pre ++ post).
Proof. intros H. rewrite !filter_app. simpl. now rewrite H. Qed.

Lemma filter_filter {A} (p q : A -> bool) (l : list A) :
  filter p (filter q l) = filter (fun x => q x && p x) l.
Proof.
  induction l as [ | a l IH]; simpl; [ reflexivity | ].
  destruct (q a); simpl; [ destruct (p a) | ]; now rewrite IH.
Qed.
End Lists.

(** ** The two implementations are the same aggregation *)

Ltac same_code :=
  unfold MockStorage.getFinancialSummary, DatabaseStorage.getFinancialSummary,
    MockStorage.getExpenseBreakdown, DatabaseStorage.getExpenseBreakdown,
    MockStorage.userAccounts, DatabaseStorage.accountsData,
    MockStorage.totalBalanceOf, DatabaseStorage.totalBalanceOf,
    MockStorage.monthlyExpensesOf, DatabaseStorage.monthlyExpensesOf,
    MockStorage.monthlyRevenueOf, DatabaseStorage.monthlyRevenueOf,
    MockStorage.categoryTotalsOf, DatabaseStorage.categoryTotalsOf,
    MockStorage.totalExpensesOf, DatabaseStorage.totalExpensesOf,
    MockStorage.expenseTransactions, DatabaseStorage.expenseTransactions,
    MockStorage.monthlyTransactions, DatabaseStorage.monthlyTransactions,
    MockStorage.startOfMonth, DatabaseStorage.startOfMonth,
    MockStorage.endOfMonth, DatabaseStorage.endOfMonth,
    MockStorage.dateOf;
  reflexivity.

Section SameCode.
Context {Num : JS.JSNumber} {tz : JS.TimeZone}.
Variables (ds : Dataset) (now : Z) (userId : string).

Lemma Mock_getFinancialSummary :
  MockStorage.getFinancialSummary ds now userId
  = DatabaseStorage.getFinancialSummary ds now userId.
Proof. same_code. Qed.

Lemma Mock_getExpenseBreakdown :
  MockStorage.getExpenseBreakdown ds now userId
  = DatabaseStorage.getExpenseBreakdown ds now userId.
Proof. same_code. Qed.

Lemma Mock_monthlyTransactions :
  MockStorage.monthlyTransactions ds now userId
  = DatabaseStorage.monthlyTransactions ds now userId.
Proof. same_code. Qed.

Lemma Mock_expenseTransactions :
  MockStorage.expenseTransactions ds now userId
  = DatabaseStorage.expenseTransactions ds now userId.
Proof. same_code. Qed.

Lemma expenseTransactions_monthly :
  DatabaseStorage.expenseTransactions ds now userId
  = filter (fun t => (t.(Transaction.type) =? "expense")%string)
      (DatabaseStorage.monthlyTransactions ds now userId).
Proof.
  unfold DatabaseStorage.expenseTransactions,
    DatabaseStorage.monthlyTransactions.
  rewrite Lists.filter_filter. apply filter_ext. intros t.
  destruct (t.(Transaction.userId) =? userId)%string,
    (t.(Transaction.type) =? "expense")%string,
    (DatabaseStorage.startOfMonth now <=? t.(Transaction.date)),
    (t.(Transaction.date) <=? DatabaseStorage.endOfMonth now); reflexivity.
Qed.
End SameCode.

(** ** The runway (C1) *)

Section Runway.
Context {Num : JS.JSNumber} {tz : JS.TimeZone}.
Import JS.

Lemma runwayByCases_conditional (L : JSNumberLaws Num)
    (total burn revenue : number) :
  runwayByCases
    {| totalBalance := total;
       monthlyBurn := burn;
       monthlyRevenue := revenue;
       runwayMonths :=
         if (burn >? lit 0)%js then (total / burn)%js else lit 999 |}.
Proof.
  unfold runwayByCases; simpl.
  destruct (burn >? lit 0)%js eqn:E; repeat split; intros H;
    try reflexivity; try discriminate.
  - rewrite (ngt_nle _ _ E) in H. discriminate.
  - now elim H.
Qed.
End Runway.

(** C1, as the specification words it, fails: with a balance of 999 and a
    burn of 1 the runway is the quotient 999 / 1, which is the sentinel,
    although the burn is positive. *)
Lemma runway_iff_counterexample :
  ~ runwayIff
      (DatabaseStorage.getFinancialSummary (Num := JS.Binary64)
         (tz := JS.utcZone) Sample.burnsOne Sample.jan15 "u").
Proof.
  intros [_ [H _]].
  assert (E : runwayMonths
                (DatabaseStorage.getFinancialSummary (Num := JS.Binary64)
                   (tz := JS.utcZone) Sample.burnsOne Sample.jan15 "u")
              = JS.lit 999) by (vm_compute; reflexivity).
  apply H in E. vm_compute in E. discriminate.
Qed.

(** C1 (amended): [getFinancialSummary] returns the quotient
    [totalBalance / monthlyBurn] as [runwayMonths] whenever
    [monthlyBurn > 0], and the sentinel 999 whenever [monthlyBurn > 0] is
    false, in particular whenever [monthlyBurn <= 0]; a runway other than
    999 is a quotient by a positive burn.  In both implementations. *)
Theorem runway_by_cases {Num : JS.JSNumber} (L : JS.JSNumberLaws Num)
    {tz : JS.TimeZone} (ds : Dataset) (now : Z) (userId : string) :
  runwayByCases (DatabaseStorage.getFinancialSummary ds now userId)
  /\ runwayByCases (MockStorage.getFinancialSummary ds now userId).
Proof.
  split.
  - unfold DatabaseStorage.getFinancialSummary.
    apply (runwayByCases_conditional L).
  - unfold MockStorage.getFinancialSummary.
    apply (runwayByCases_conditional L).
Qed.

Lemma runway_by_cases_witness :
  runwayByCases
    (DatabaseStorage.getFinancialSummary (Num := JS.Binary64)
       (tz := JS.utcZone) Sample.burnsOne Sample.jan15 "u")
  /\ runwayByCases
       (MockStorage.getFinancialSummary (Num := JS.Binary64)
          (tz := JS.utcZone) Sample.burnsOne Sample.jan15 "u").
Proof. exact (runway_by_cases Laws.Binary64_laws _ _ _). Defined.

(** ** The total balance (C3) *)

Section TotalBalance.
Context {Num : JS.JSNumber} {tz : JS.TimeZone}.
Import JS.
Local Open Scope string_scope.

Lemma totalBalanceOf_sumOf (l : list Account.t) :
  DatabaseStorage.totalBalanceOf l = sumOf (map parsedBalance l).
Proof.
  unfold DatabaseStorage.totalBalanceOf, sumOf.
  now rewrite Lists.fold_left_map.
Qed.

Lemma filter_withActive (userId : string) (flag : Account.t -> bool)
    (l : list Account.t) :
  map parsedBalance
    (filter (fun a => a.(Account.userId) =? userId)
       (map (fun a => withActive a (flag a)) l))
  = map parsedBalance (filter (fun a => a.(Account.userId) =? userId) l).
Proof.
  induction l as [ | a l IH]; simpl; [ reflexivity | ].
  destruct (a.(Account.userId) =? userId); simpl; now rewrite IH.
Qed.

(** C3: [totalBalance] is the sum of the parsed balances of all the
    accounts of the user, whatever their [isActive] flags: setting the
    flags to anything leaves it unchanged, one more account of the user
    adds its parsed balance even when it is inactive, and a user without
    accounts has a total of 0.  In both implementations. *)
Theorem totalBalance_sums_every_account
    (ds : Dataset) (now : Z) (userId : string) :
  let mine := filter (fun a => a.(Account.userId) =? userId) ds.(accounts) in
  let total (d : Dataset) :=
    (DatabaseStorage.getFinancialSummary d now userId).(totalBalance) in
  total ds = sumOf (map parsedBalance mine)
  /\ (MockStorage.getFinancialSummary ds now userId).(totalBalance) = total ds
  /\ (forall flag : Account.t -> bool,
        total (withAccounts ds
                 (map (fun a => withActive a (flag a)) ds.(accounts)))
        = total ds)
  /\ (forall a : Account.t,
        total (withAccounts ds (ds.(accounts) ++ [a]))
        = if a.(Account.userId) =? userId
          then (total ds + parsedBalance a)%js
          else total ds)
  /\ (mine = [] -> total ds = lit 0).
Proof.
  intros mine total.
  assert (T : forall d, total d
              = sumOf (map parsedBalance
                   (filter (fun a => a.(Account.userId) =? userId)
                      d.(accounts)))).
  { intros d. unfold total, DatabaseStorage.getFinancialSummary. simpl.
    apply totalBalanceOf_sumOf. }
  refine (conj _ (conj _ (conj _ (conj _ _)))).
  - apply T.
  - unfold total.
    exact (f_equal totalBalance (Mock_getFinancialSummary ds now userId)).
  - intros flag. rewrite !T. simpl. now rewrite filter_withActive.
  - intros a. rewrite !T. simpl. rewrite filter_app. simpl.
    destruct (a.(Account.userId) =? userId).
    + rewrite map_app. unfold sumOf. now rewrite fold_left_app.
    + now rewrite app_nil_r.
  - intros E. rewrite T. fold mine. now rewrite E.
Qed.
End TotalBalance.

(** ** Expenses and revenue (C4) *)

Section ExpensesRevenue.
Context {Num : JS.JSNumber} {tz : JS.TimeZone}.
Import JS.
Local Open Scope string_scope.

Lemma signFlipped_fields (t t' : Transaction.t) :
  sameOrSignFlipped t t' ->
  t'.(Transaction.userId) = t.(Transaction.userId)
  /\ t'.(Transaction.date) = t.(Transaction.date)
  /\ t'.(Transaction.type) = t.(Transaction.type)
  /\ t'.(Transaction.category) = t.(Transaction.category).
Proof.
  intros [-> | (_ & E & _)]; [ now auto | ].
  rewrite E. simpl. now auto.
Qed.

Lemma monthly_signFlipped (ds : Dataset) (now : Z) (userId : string)
    (l' : list Transaction.t) :
  Forall2 sameOrSignFlipped ds.(transactions) l' ->
  Forall2 sameOrSignFlipped
    (DatabaseStorage.monthlyTransactions ds now userId)
    (DatabaseStorage.monthlyTransactions (withTransactions ds l') now userId).
Proof.
  intros H. unfold DatabaseStorage.monthlyTransactions. simpl.
  apply Lists.filter_Forall2; [ | exact H ].
  intros t t' R. destruct (signFlipped_fields _ _ R) as (-> & -> & _).
  reflexivity.
Qed.

Lemma monthlyExpensesOf_signFlipped (L : JSNumberLaws Num)
    (l l' : list Transaction.t) :
  Forall2 sameOrSignFlipped l l' ->
  DatabaseStorage.monthlyExpensesOf l' = DatabaseStorage.monthlyExpensesOf l.
Proof.
  intros H. unfold DatabaseStorage.monthlyExpensesOf. symmetry.
  apply Lists.fold_left_Forall2 with (R := sameOrSignFlipped).
  - intros x t t' [-> | (_ & _ & E)]; [ reflexivity | ].
    now rewrite E, nabs_nneg.
  - apply Lists.filter_Forall2; [ | exact H ].
    intros t t' R. now destruct (signFlipped_fields _ _ R) as (_ & _ & -> & _).
Qed.

Lemma monthlyRevenueOf_signFlipped (l l' : list Transaction.t) :
  Forall2 sameOrSignFlipped l l' ->
  DatabaseStorage.monthlyRevenueOf l' = DatabaseStorage.monthlyRevenueOf l.
Proof.
  intros H. unfold DatabaseStorage.monthlyRevenueOf. f_equal.
  induction H as [ | t t' l l' R _ IH]; simpl; [ reflexivity | ].
  destruct R as [-> | (Ty & E & _)].
  - now rewrite IH.
  - rewrite E. simpl. rewrite Ty. simpl. exact IH.
Qed.

(** C4: [monthlyExpenses] is the sum of the absolute values of the parsed
    amounts of the month's expenses, [monthlyRevenue] the sum of the
    parsed amounts, sign kept, of the month's incomes, and the burn their
    difference; flipping the sign of the amounts of any expenses leaves
    the summary unchanged.  In both implementations. *)
Theorem expenses_absolute_revenue_signed (L : JSNumberLaws Num)
    (ds : Dataset) (now : Z) (userId : string) :
  let month := DatabaseStorage.monthlyTransactions ds now userId in
  let ofType (ty : string) :=
    filter (fun t => t.(Transaction.type) =? ty) month in
  let summary := DatabaseStorage.getFinancialSummary ds now userId in
  DatabaseStorage.monthlyExpensesOf month
  = sumOf (map (fun t => nabs (parseFloat t.(Transaction.amount)))
             (ofType "expense"))
  /\ summary.(monthlyRevenue)
     = sumOf (map (fun t => parseFloat t.(Transaction.amount))
                (ofType "income"))
  /\ summary.(monthlyBurn)
     = (DatabaseStorage.monthlyExpensesOf month - summary.(monthlyRevenue))%js
  /\ MockStorage.getFinancialSummary ds now userId = summary
  /\ (forall l' : list Transaction.t,
        Forall2 sameOrSignFlipped ds.(transactions) l' ->
        DatabaseStorage.getFinancialSummary (withTransactions ds l') now userId
        = summary
        /\ MockStorage.getFinancialSummary (withTransactions ds l') now userId
           = summary).
Proof.
  intros month ofType summary.
  refine (conj _ (conj _ (conj _ (conj _ _)))); [ | | reflexivity | | ].
  - unfold DatabaseStorage.monthlyExpensesOf, sumOf.
    now rewrite Lists.fold_left_map.
  - unfold summary, DatabaseStorage.getFinancialSummary,
      DatabaseStorage.monthlyRevenueOf, sumOf. simpl.
    now rewrite Lists.fold_left_map.
  - apply Mock_getFinancialSummary.
  - intros l' H. split.
    + pose proof (monthly_signFlipped ds now userId _ H) as M.
    unfold summary, DatabaseStorage.getFinancialSummary.
    rewrite (monthlyExpensesOf_signFlipped L _ _ M),
      (monthlyRevenueOf_signFlipped _ _ M).
    reflexivity.
    + pose proof (monthly_signFlipped ds now userId _ H) as M.
    unfold summary, MockStorage.getFinancialSummary,
      DatabaseStorage.getFinancialSummary.
    change (MockStorage.monthlyExpensesOf
              (MockStorage.monthlyTransactions (withTransactions ds l') now userId))
      with (DatabaseStorage.monthlyExpensesOf
              (DatabaseStorage.monthlyTransactions (withTransactions ds l') now userId)).
    change (MockStorage.monthlyRevenueOf
              (MockStorage.monthlyTransactions (withTransactions ds l') now userId))
      with (DatabaseStorage.monthlyRevenueOf
              (DatabaseStorage.monthlyTransactions (withTransactions ds l') now userId)).
    rewrite (monthlyExpensesOf_signFlipped L _ _ M),
      (monthlyRevenueOf_signFlipped _ _ M).
    reflexivity.
Qed.
End ExpensesRevenue.

(** ** Empty inputs (C5) *)

Section EmptyInputs.
Context {Num : JS.JSNumber} {tz : JS.TimeZone}.
Import JS.
Local Open Scope string_scope.

Lemma summary_of_empty_month (L : JSNumberLaws Num)
    (ds : Dataset) (now : Z) (userId : string) :
  DatabaseStorage.monthlyTransactions ds now userId = [] ->
  let s := DatabaseStorage.getFinancialSummary ds now userId in
  s.(monthlyBurn) = lit 0 /\ s.(monthlyRevenue) = lit 0
  /\ s.(runwayMonths) = lit 999.
Proof.
  intros E s. unfold s, DatabaseStorage.getFinancialSummary.
  rewrite E. cbn. rewrite nsub_0_0, ngt_0_0. auto.
Qed.

Lemma breakdown_of_no_expense (ds : Dataset) (now : Z) (userId : string) :
  DatabaseStorage.expenseTransactions ds now userId = [] ->
  DatabaseStorage.getExpenseBreakdown ds now userId = [].
Proof.
  intros E. unfold DatabaseStorage.getExpenseBreakdown. now rewrite E.
Qed.

(** C5: with no transaction of the user in the month, the burn is 0,
    the revenue is 0 and the runway is the sentinel 999; with no expense
    of the user in the month, the breakdown is the empty list.  Both are
    values, never errors, and both implementations agree. *)
Theorem empty_inputs_give_zero (L : JSNumberLaws Num)
    (ds : Dataset) (now : Z) (userId : string) :
  (DatabaseStorage.monthlyTransactions ds now userId = [] ->
   forall s,
     s = DatabaseStorage.getFinancialSummary ds now userId
     \/ s = MockStorage.getFinancialSummary ds now userId ->
     s.(monthlyBurn) = lit 0 /\ s.(monthlyRevenue) = lit 0
     /\ s.(runwayMonths) = lit 999)
  /\ (filter (fun t => t.(Transaction.type) =? "expense")
        (DatabaseStorage.monthlyTransactions ds now userId) = [] ->
      DatabaseStorage.getExpenseBreakdown ds now userId = []
      /\ MockStorage.getExpenseBreakdown ds now userId = []).
Proof.
  split.
  - intros E s [-> | ->].
    + apply (summary_of_empty_month L), E.
    + exact (summary_of_empty_month L ds now userId E).
  - intros E. rewrite <- expenseTransactions_monthly in E.
    pose proof (breakdown_of_no_expense ds now userId E) as B.
    split; [ exact B | ].
    exact (eq_trans (Mock_getExpenseBreakdown ds now userId) B).
Qed.
End EmptyInputs.

Lemma empty_inputs_give_zero_witness :
  let ds := {| accounts := []; transactions := [] |} in
  (forall s,
     s = DatabaseStorage.getFinancialSummary (Num := JS.Binary64)
           (tz := JS.utcZone) ds Sample.jan15 "u"
     \/ s = MockStorage.getFinancialSummary (Num := JS.Binary64)
              (tz := JS.utcZone) ds Sample.jan15 "u" ->
     s.(monthlyBurn) = JS.lit 0 /\ s.(monthlyRevenue) = JS.lit 0
     /\ s.(runwayMonths) = JS.lit 999)
  /\ DatabaseStorage.getExpenseBreakdown (Num := JS.Binary64)
       (tz := JS.utcZone) ds Sample.jan15 "u" = []
  /\ MockStorage.getExpenseBreakdown (Num := JS.Binary64)
       (tz := JS.utcZone) ds Sample.jan15 "u" = [].
Proof.
  intros ds.
  destruct (empty_inputs_give_zero Laws.Binary64_laws (tz := JS.utcZone)
              ds Sample.jan15 "u") as [S B].
  split; [ exact (S eq_refl) | exact (B eq_refl) ].
Defined.

Lemma expenses_absolute_revenue_signed_witness :
  let ds := Sample.scenario Sample.jan15 Sample.jan15 in
  let flipped :=
    [Sample.transaction "u" "expense" "2847.00" (Some "Engineering"%string)
       Sample.jan15;
     Sample.transaction "u" "income" "45000.00" (Some "Revenue"%string)
       Sample.jan15] in
  DatabaseStorage.getFinancialSummary (Num := JS.Binary64) (tz := JS.utcZone)
    (withTransactions ds flipped) Sample.jan15 "u"
  = DatabaseStorage.getFinancialSummary (Num := JS.Binary64)
      (tz := JS.utcZone) ds Sample.jan15 "u".
Proof.
  intros ds flipped.
  refine (proj1 (proj2 (proj2 (proj2 (proj2
    (expenses_absolute_revenue_signed Laws.Binary64_laws (tz := JS.utcZone)
       ds Sample.jan15 "u")))) flipped _)).
  constructor; [ right | constructor; [ left; reflexivity | constructor ] ].
  split; [ reflexivity | split; [ reflexivity | vm_compute; reflexivity ] ].
Defined.

(** ** The window of the month (C2) *)

(** C2, at the input where the code departs from it: on 15 January 2024
    (UTC) an expense dated 31 January 2024, 12:00, lies in the calendar
    month of the clock, yet neither [getFinancialSummary] nor
    [getExpenseBreakdown] selects it, in either implementation:
    [endOfMonth] is 31 January, 00:00, the first instant of the last day. *)
Theorem last_day_of_month_is_left_out :
  let now := Sample.jan15 in
  sameCalendarMonthb (tz := JS.utcZone) now Sample.jan31noon = true
  /\ DatabaseStorage.endOfMonth (tz := JS.utcZone) now = 1706659200000
  /\ Sample.jan31noon = 1706659200000 + 12 * JS.msPerHour
  /\ DatabaseStorage.monthlyTransactions (tz := JS.utcZone)
       Sample.lastDay now "u" = []
  /\ DatabaseStorage.expenseTransactions (tz := JS.utcZone)
       Sample.lastDay now "u" = []
  /\ MockStorage.monthlyTransactions (tz := JS.utcZone)
       Sample.lastDay now "u" = []
  /\ MockStorage.expenseTransactions (tz := JS.utcZone)
       Sample.lastDay now "u" = []
  /\ DatabaseStorage.getExpenseBreakdown (Num := JS.Binary64)
       (tz := JS.utcZone) Sample.lastDay now "u" = []
  /\ (DatabaseStorage.getFinancialSummary (Num := JS.Binary64)
        (tz := JS.utcZone) Sample.lastDay now "u").(monthlyBurn) = JS.lit 0.
Proof.
  intros now.
  assert (M : DatabaseStorage.monthlyTransactions (tz := JS.utcZone)
                Sample.lastDay now "u" = []) by (vm_compute; reflexivity).
  assert (E : DatabaseStorage.expenseTransactions (tz := JS.utcZone)
                Sample.lastDay now "u" = []) by (vm_compute; reflexivity).
  refine (conj _ (conj _ (conj _ (conj M (conj E (conj _ (conj _
            (conj (breakdown_of_no_expense _ _ _ E)
               (proj1 (summary_of_empty_month Laws.Binary64_laws _ _ _ M))))))))));
    vm_compute; reflexivity.
Qed.

(** ** Categories that are members of [Object.prototype] (C6) *)

(** C6, at the input where the code departs from it: one expense of 100
    of the month whose category is the text [__proto__].  The summary
    counts it ([monthlyExpenses] is 100), the breakdown drops it: no group
    holds it, in either implementation. *)
Theorem proto_category_is_dropped :
  let now := Sample.jan15 in
  DatabaseStorage.expenseTransactions (tz := JS.utcZone)
    Sample.protoCategory now "u" = Sample.protoCategory.(transactions)
  /\ DatabaseStorage.monthlyExpensesOf (Num := JS.Binary64)
       (DatabaseStorage.monthlyTransactions (tz := JS.utcZone)
          Sample.protoCategory now "u") = JS.lit 100
  /\ DatabaseStorage.getExpenseBreakdown (Num := JS.Binary64)
       (tz := JS.utcZone) Sample.protoCategory now "u" = []
  /\ MockStorage.getExpenseBreakdown (Num := JS.Binary64)
       (tz := JS.utcZone) Sample.protoCategory now "u" = [].
Proof.
  intros now.
  assert (E : DatabaseStorage.expenseTransactions (tz := JS.utcZone)
                Sample.protoCategory now "u"
              = Sample.protoCategory.(transactions))
    by (vm_compute; reflexivity).
  assert (M : DatabaseStorage.monthlyTransactions (tz := JS.utcZone)
                Sample.protoCategory now "u"
              = Sample.protoCategory.(transactions))
    by (vm_compute; reflexivity).
  assert (B : DatabaseStorage.getExpenseBreakdown (Num := JS.Binary64)
                (tz := JS.utcZone) Sample.protoCategory now "u" = []).
  { unfold DatabaseStorage.getExpenseBreakdown. rewrite E. reflexivity. }
  refine (conj E (conj _ (conj B _))).
  - rewrite M. vm_compute. reflexivity.
  - exact (eq_trans (Mock_getExpenseBreakdown (Num := JS.Binary64)
                       (tz := JS.utcZone) Sample.protoCategory now "u") B).
Qed.

(** ** The scenario of the specification (C8) *)

(** C8: two accounts of 45000.00 and 125000.00, and in the month one
    expense of -2847.00 and one income of 45000.00: the total balance is
    170000, the expenses are 2847, the revenue is 45000, the burn is
    -42153 and the runway is the sentinel 999, in binary64 arithmetic
    and in both implementations. *)
Theorem scenario_summary {tz : JS.TimeZone} (now d1 d2 : Z) :
  (DatabaseStorage.startOfMonth now <= d1 <= DatabaseStorage.endOfMonth now)%Z ->
  (DatabaseStorage.startOfMonth now <= d2 <= DatabaseStorage.endOfMonth now)%Z ->
  let expected :=
    @Build_FinancialSummary JS.Binary64 170000%float (-42153)%float
      45000%float 999%float in
  DatabaseStorage.getFinancialSummary (Num := JS.Binary64)
    (Sample.scenario d1 d2) now "u" = expected
  /\ MockStorage.getFinancialSummary (Num := JS.Binary64)
       (Sample.scenario d1 d2) now "u" = expected
  /\ DatabaseStorage.monthlyExpensesOf (Num := JS.Binary64)
       (DatabaseStorage.monthlyTransactions (Sample.scenario d1 d2) now "u")
     = 2847%float.
Proof.
  intros [A1 B1] [A2 B2] expected.
  apply Z.leb_le in A1, B1, A2, B2.
  assert (M : DatabaseStorage.monthlyTransactions (Sample.scenario d1 d2)
                now "u" = (Sample.scenario d1 d2).(transactions)).
  { unfold DatabaseStorage.monthlyTransactions, Sample.scenario,
      Sample.transaction. cbn [transactions filter Transaction.userId
      Transaction.date]. rewrite A1, B1, A2, B2. reflexivity. }
  assert (T : DatabaseStorage.totalBalanceOf (Num := JS.Binary64)
                (DatabaseStorage.accountsData (Sample.scenario d1 d2) "u")
              = 170000%float) by (vm_compute; reflexivity).
  assert (X : DatabaseStorage.monthlyExpensesOf (Num := JS.Binary64)
                (Sample.scenario d1 d2).(transactions) = 2847%float)
    by (vm_compute; reflexivity).
  assert (R : DatabaseStorage.monthlyRevenueOf (Num := JS.Binary64)
                (Sample.scenario d1 d2).(transactions) = 45000%float)
    by (vm_compute; reflexivity).
  assert (B : JS.nsub (JSNumber := JS.Binary64) 2847%float 45000%float
              = (-42153)%float)
    by (vm_compute; reflexivity).
  assert (G : JS.ngt (JSNumber := JS.Binary64) (-42153)%float (JS.lit 0)
              = false)
    by (vm_compute; reflexivity).
  assert (S : JS.lit (Num := JS.Binary64) 999 = 999%float)
    by (vm_compute; reflexivity).
  assert (E : DatabaseStorage.getFinancialSummary (Num := JS.Binary64)
                (Sample.scenario d1 d2) now "u" = expected).
  { unfold DatabaseStorage.getFinancialSummary.
    rewrite M, T, X, R, B, G, S. reflexivity. }
  refine (conj E (conj _ _)).
  - exact (eq_trans (Mock_getFinancialSummary (Num := JS.Binary64)
                       (Sample.scenario d1 d2) now "u") E).
  - rewrite M. exact X.
Qed.

Lemma scenario_summary_witness :
  (DatabaseStorage.getFinancialSummary (Num := JS.Binary64) (tz := JS.utcZone)
     (Sample.scenario Sample.jan15 Sample.jan15) Sample.jan15 "u"
   ).(totalBalance) = 170000%float.
Proof.
  refine (f_equal totalBalance
            (proj1 (scenario_summary (tz := JS.utcZone) Sample.jan15
                      Sample.jan15 Sample.jan15 _ _)));
    vm_compute; split; discriminate.
Defined.

(** ** Transfers (C9) *)

Section Neutral.
Context {Num : JS.JSNumber} {tz : JS.TimeZone}.
Import JS.
Local Open Scope string_scope.

Lemma neutral_not_expense (t : Transaction.t) :
  neutral t -> (t.(Transaction.type) =? "expense") = false.
Proof. intros [H _]. now apply String.eqb_neq. Qed.

Lemma neutral_not_income (t : Transaction.t) :
  neutral t -> (t.(Transaction.type) =? "income") = false.
Proof. intros [_ H]. now apply String.eqb_neq. Qed.

Variables (ds : Dataset) (now : Z) (userId : string).
Variables (pre post : list Transaction.t) (t : Transaction.t).
Hypothesis neutral_t : neutral t.
Hypothesis rows : ds.(transactions) = (pre ++ post)%list.

Let ds' := withTransactions ds (pre ++ t :: post)%list.

Lemma neutral_monthly (ty : string) :
  (t.(Transaction.type) =? ty) = false ->
  filter (fun x => x.(Transaction.type) =? ty)
    (DatabaseStorage.monthlyTransactions ds' now userId)
  = filter (fun x => x.(Transaction.type) =? ty)
      (DatabaseStorage.monthlyTransactions ds now userId).
Proof.
  intros H. unfold DatabaseStorage.monthlyTransactions, ds'. simpl.
  rewrite rows, !Lists.filter_filter.
  apply Lists.filter_insert_false. rewrite H. apply andb_false_r.
Qed.

Lemma neutral_expenseTransactions :
  DatabaseStorage.expenseTransactions ds' now userId
  = DatabaseStorage.expenseTransactions ds now userId.
Proof.
  rewrite !expenseTransactions_monthly.
  apply neutral_monthly, neutral_not_expense, neutral_t.
Qed.

Lemma neutral_summary :
  DatabaseStorage.getFinancialSummary ds' now userId
  = DatabaseStorage.getFinancialSummary ds now userId.
Proof.
  unfold DatabaseStorage.getFinancialSummary,
    DatabaseStorage.monthlyExpensesOf, DatabaseStorage.monthlyRevenueOf.
  rewrite (neutral_monthly _ (neutral_not_expense _ neutral_t)),
    (neutral_monthly _ (neutral_not_income _ neutral_t)).
  reflexivity.
Qed.

Lemma neutral_breakdown :
  DatabaseStorage.getExpenseBreakdown ds' now userId
  = DatabaseStorage.getExpenseBreakdown ds now userId.
Proof.
  unfold DatabaseStorage.getExpenseBreakdown.
  now rewrite neutral_expenseTransactions.
Qed.
End Neutral.

(** C9: a transaction that is neither an expense nor an income (a
    transfer), put anywhere among the rows, whatever its date, changes
    nothing: the summary (balance, burn, revenue, runway) and the breakdown
    are the same with and without it, and it is not among the expenses
    that are grouped.  In both implementations. *)
Theorem neutral_transactions_contribute_nothing
    {Num : JS.JSNumber} {tz : JS.TimeZone}
    (ds : Dataset) (now : Z) (userId : string)
    (pre post : list Transaction.t) (t : Transaction.t) :
  neutral t ->
  ds.(transactions) = pre ++ post ->
  let ds' := withTransactions ds (pre ++ t :: post) in
  DatabaseStorage.getFinancialSummary ds' now userId
  = DatabaseStorage.getFinancialSummary ds now userId
  /\ DatabaseStorage.getExpenseBreakdown ds' now userId
     = DatabaseStorage.getExpenseBreakdown ds now userId
  /\ MockStorage.getFinancialSummary ds' now userId
     = MockStorage.getFinancialSummary ds now userId
  /\ MockStorage.getExpenseBreakdown ds' now userId
     = MockStorage.getExpenseBreakdown ds now userId
  /\ ~ In t (DatabaseStorage.expenseTransactions ds' now userId).
Proof.
  intros N R ds'.
  pose proof (neutral_summary ds now userId pre post t N R) as S.
  pose proof (neutral_breakdown ds now userId pre post t N R) as B.
  refine (conj S (conj B (conj _ (conj _ _)))).
  - exact S.
  - exact B.
  - unfold DatabaseStorage.expenseTransactions. intros H.
    apply filter_In in H. destruct H as [_ H].
    rewrite (neutral_not_expense _ N) in H.
    now rewrite andb_false_r in H.
Qed.

Lemma neutral_transactions_contribute_nothing_witness :
  let ds := Sample.scenario Sample.jan15 Sample.jan15 in
  let transfer :=
    Sample.transaction "u" "transfer" "500.00" None Sample.jan15 in
  DatabaseStorage.getFinancialSummary (Num := JS.Binary64) (tz := JS.utcZone)
    (withTransactions ds (transfer :: ds.(transactions))) Sample.jan15 "u"
  = DatabaseStorage.getFinancialSummary (Num := JS.Binary64)
      (tz := JS.utcZone) ds Sample.jan15 "u".
Proof.
  intros ds transfer.
  refine (proj1 (neutral_transactions_contribute_nothing
                   (Num := JS.Binary64) (tz := JS.utcZone)
                   ds Sample.jan15 "u" [] ds.(transactions) transfer _ _)).
  - split; discriminate.
  - reflexivity.
Defined.

(** ** Dictionaries, in any arithmetic *)

Section Dictionaries.
Context {Num : JS.JSNumber}.
Import JS.
Local Open Scope string_scope.

Lemma keys_setOwn (o : object) (k : string) (v : value) (x : string) :
  In x (map fst (setOwn o k v)) <-> x = k \/ In x (map fst o).
Proof.
  induction o as [ | [k' v'] rest IH]; cbn [setOwn map fst In].
  - intuition.
  - destruct (String.eqb k' k) eqn:E; cbn [map fst In].
    + apply String.eqb_eq in E. subst k'. intuition.
    + rewrite IH. intuition.
Qed.

Lemma NoDup_setOwn (o : object) (k : string) (v : value) :
  NoDup (map fst o) -> NoDup (map fst (setOwn o k v)).
Proof.
  induction o as [ | [k' v'] rest IH]; cbn [setOwn map fst]; intros H.
  - constructor; [ intros [] | constructor ].
  - destruct (String.eqb k' k) eqn:E; cbn [map fst]; [ exact H | ].
    inversion H as [ | ? ? Hn Hr]; subst. constructor.
    + rewrite keys_setOwn. intros [-> | I]; [ | contradiction ].
      rewrite String.eqb_refl in E. discriminate E.
    + now apply IH.
Qed.

Lemma keys_set (o : object) (k : string) (v : value) (x : string) :
  In x (map fst (set o k v))
  <-> (k <> "__proto__" /\ x = k) \/ In x (map fst o).
Proof.
  unfold set. destruct (String.eqb k "__proto__") eqn:E.
  - apply String.eqb_eq in E. intuition.
  - apply String.eqb_neq in E. rewrite keys_setOwn. intuition.
Qed.

Lemma NoDup_set (o : object) (k : string) (v : value) :
  NoDup (map fst o) -> NoDup (map fst (set o k v)).
Proof.
  unfold set. destruct (String.eqb k "__proto__"); [ auto | ].
  apply NoDup_setOwn.
Qed.





Lemma insertByIndex_perm (i : N) (e : string * value)
    (l : list (N * (string * value))) :
  Permutation (map snd (insertByIndex i e l)) (e :: map snd l).
Proof.
  induction l as [ | [j e'] l IH]; cbn [insertByIndex map snd].
  - reflexivity.
  - destruct (i <=? j)%N; cbn [map snd]; [ reflexivity | ].
    rewrite IH. apply perm_swap.
Qed.

(** [Object.entries] lists every property once. *)
Lemma entries_perm (o : object) : Permutation (entries o) o.
Proof.
  unfold entries, namedEntries.
  induction o as [ | [k v] rest IH]; cbn [indexEntries filter fst].
  - reflexivity.
  - destruct (arrayIndex k) as [i | ].
    + rewrite insertByIndex_perm. cbn [app]. now apply perm_skip.
    + rewrite <- Permutation_middle. now apply perm_skip.
Qed.

(** The keys of the totals. *)
Lemma totals_keys (txs : list Transaction.t) (o : object) :
  NoDup (map fst o) ->
  NoDup (map fst (fold_left addToCategory txs o))
  /\ forall x : string,
       In x (map fst (fold_left addToCategory txs o))
       <-> In x (map fst o)
           \/ (x <> "__proto__"
               /\ exists t : Transaction.t,
                    In t txs
                    /\ orString t.(Transaction.category) "Uncategorized"
                       = x).
Proof.
  revert o. induction txs as [ | t txs IH]; intros o H; cbn [fold_left].
  - split; [ exact H | ]. intros x. split; [ now left | ].
    intros [I | (_ & t & [] & _)]. exact I.
  - unfold addToCategory at 2 4. cbv zeta.
    destruct (IH _ (NoDup_set o
                      (orString t.(Transaction.category) "Uncategorized")
                      (add (orElse
                              (get o
                                 (orString t.(Transaction.category)
                                    "Uncategorized"))
                              (VNumber (lit 0)))
                         (VNumber
                            (nabs (parseFloat t.(Transaction.amount)))))
                      H))
      as [D K].
    split; [ exact D | ]. intros x. rewrite K, keys_set. split.
    + intros [[(P & ->) | I] | (P & t' & I & E)].
      * right. split; [ exact P | ]. exists t. split; [ now left | reflexivity ].
      * now left.
      * right. split; [ exact P | ]. exists t'. split; [ now right | exact E ].
    + intros [I | (P & t' & [<- | I] & E)].
      * left. now right.
      * left. left. subst x. split; [ exact P | reflexivity ].
      * right. split; [ exact P | ]. exists t'. split; assumption.
Qed.

Lemma categoryTotalsOf_fold (txs : list Transaction.t) :
  DatabaseStorage.categoryTotalsOf txs = fold_left addToCategory txs [].
Proof. reflexivity. Qed.

(** The keys of [categoryTotals], as [Object.entries] lists them: each
    once, and they are the categories of the expenses, [__proto__]
    apart. *)
Lemma categories_of_totals (txs : list Transaction.t) :
  NoDup (map fst (entries (DatabaseStorage.categoryTotalsOf txs)))
  /\ forall c : string,
       In c (map fst (entries (DatabaseStorage.categoryTotalsOf txs)))
       <-> c <> "__proto__"
           /\ exists t : Transaction.t,
                In t txs
                /\ orString t.(Transaction.category) "Uncategorized" = c.
Proof.
  rewrite categoryTotalsOf_fold.
  destruct (totals_keys txs [] (NoDup_nil _)) as [D K].
  assert (P := Permutation_map fst
                 (entries_perm (fold_left addToCategory txs []))).
  split.
  - exact (Permutation_NoDup (Permutation_sym P) D).
  - intros c. split.
    + intros I. apply (Permutation_in _ P) in I. apply K in I.
      destruct I as [[] | I]. exact I.
    + intros I. apply (Permutation_in _ (Permutation_sym P)).
      apply K. now right.
Qed.








End Dictionaries.

(** ** Totals of categories in the arithmetic of the runtime *)

Section PlainSums.
Import JS.
Local Open Scope string_scope.


End PlainSums.

(** ** Percentages (C7) *)

Section Percentages.
Context {Num : JS.JSNumber} {tz : JS.TimeZone}.
Import JS.
Local Open Scope string_scope.


Lemma categories_of_entries (g : string -> value -> number)
    (l : list (string * value)) :
  map category
    (map (fun '(category, amount) =>
            {| category := category; amount := amount;
               percentage := g category amount |}) l)
  = map fst l.
Proof. rewrite map_map. apply map_ext. intros [c a]. reflexivity. Qed.

(** The categories of the breakdown: each once, and those of the
    expenses of the month, [__proto__] apart. *)
Lemma categories_of_breakdown (ds : Dataset) (now : Z) (userId : string) :
  NoDup (map category (DatabaseStorage.getExpenseBreakdown ds now userId))
  /\ forall c : string,
       In c (map category (DatabaseStorage.getExpenseBreakdown ds now userId))
       <-> c <> "__proto__"
           /\ exists t : Transaction.t,
                In t (DatabaseStorage.expenseTransactions ds now userId)
                /\ orString t.(Transaction.category) "Uncategorized" = c.
Proof.
  unfold DatabaseStorage.getExpenseBreakdown. cbv zeta.
  generalize (DatabaseStorage.expenseTransactions ds now userId).
  intros txs.
  rewrite (categories_of_entries
             (fun _ amount =>
                if gt (DatabaseStorage.totalExpensesOf
                         (DatabaseStorage.categoryTotalsOf txs)) (lit 0)
                then (ToNumber amount
                      / ToNumber
                          (DatabaseStorage.totalExpensesOf
                             (DatabaseStorage.categoryTotalsOf txs))
                      * lit 100)%js
                else lit 0)).
  apply categories_of_totals.
Qed.

End Percentages.


(** ** The two implementations (C10) *)

Section SameRows.
Context {Num : JS.JSNumber} {tz : JS.TimeZone}.
Import JS.
Local Open Scope string_scope.

Lemma filter_perm {A} (p : A -> bool) (l l' : list A) :
  Permutation l l' -> Permutation (filter p l) (filter p l').
Proof.
  induction 1 as [ | x l l' _ IH | x y l | l l' l'' _ IH _ IH'];
    cbn [filter].
  - constructor.
  - destruct (p x); [ now constructor | exact IH ].
  - destruct (p x), (p y); try reflexivity. apply perm_swap.
  - now transitivity (filter p l').
Qed.

Lemma Mock_userAccounts (ds : Dataset) (userId : string) :
  MockStorage.userAccounts ds userId
  = DatabaseStorage.accountsData ds userId.
Proof. reflexivity. Qed.

Lemma Database_summaryOf (ds : Dataset) (now : Z) (userId : string) :
  DatabaseStorage.getFinancialSummary ds now userId
  = summaryOf
      (sumOf (map parsedBalance (DatabaseStorage.accountsData ds userId)))
      (sumOf (expenseAmounts
                (DatabaseStorage.monthlyTransactions ds now userId)))
      (sumOf (incomeAmounts
                (DatabaseStorage.monthlyTransactions ds now userId))).
Proof.
  unfold DatabaseStorage.getFinancialSummary, summaryOf. cbv zeta.
  generalize (DatabaseStorage.accountsData ds userId)
    (DatabaseStorage.monthlyTransactions ds now userId).
  intros a m.
  unfold DatabaseStorage.totalBalanceOf, DatabaseStorage.monthlyExpensesOf,
    DatabaseStorage.monthlyRevenueOf, sumOf, expenseAmounts, incomeAmounts,
    parsedBalance.
  rewrite !Lists.fold_left_map. reflexivity.
Qed.

Lemma Mock_summaryOf (ds : Dataset) (now : Z) (userId : string) :
  MockStorage.getFinancialSummary ds now userId
  = summaryOf
      (sumOf (map parsedBalance (MockStorage.userAccounts ds userId)))
      (sumOf (expenseAmounts
                (MockStorage.monthlyTransactions ds now userId)))
      (sumOf (incomeAmounts
                (MockStorage.monthlyTransactions ds now userId))).
Proof.
  unfold MockStorage.getFinancialSummary, summaryOf. cbv zeta.
  generalize (MockStorage.userAccounts ds userId)
    (MockStorage.monthlyTransactions ds now userId).
  intros a m.
  unfold MockStorage.totalBalanceOf, MockStorage.monthlyExpensesOf,
    MockStorage.monthlyRevenueOf, sumOf, expenseAmounts, incomeAmounts,
    parsedBalance.
  rewrite !Lists.fold_left_map. reflexivity.
Qed.

Lemma categories_perm (ds ds' : Dataset) (now : Z) (userId : string) :
  Permutation ds.(transactions) ds'.(transactions) ->
  Permutation
    (map category (DatabaseStorage.getExpenseBreakdown ds now userId))
    (map category (DatabaseStorage.getExpenseBreakdown ds' now userId)).
Proof.
  intros P.
  destruct (categories_of_breakdown ds now userId) as [D K].
  destruct (categories_of_breakdown ds' now userId) as [D' K'].
  assert (Q : Permutation (DatabaseStorage.expenseTransactions ds now userId)
                (DatabaseStorage.expenseTransactions ds' now userId)).
  { unfold DatabaseStorage.expenseTransactions. now apply filter_perm. }
  apply (NoDup_Permutation D D'). intros c. rewrite K, K'.
  split; intros (N & t & I & E); (split; [ exact N | ]); exists t;
    (split; [ | exact E ]).
  - exact (Permutation_in _ Q I).
  - exact (Permutation_in _ (Permutation_sym Q) I).
Qed.

(** C10 (amended): when [MockStorage] holds the rows [ds] and the queries
    of [DatabaseStorage], which have no [ORDER BY], return the same rows
    in any order [ds'], the two implementations select the same
    accounts, the same transactions of the month and the same expenses,
    each summary is the summary of the sums of the numbers of the rows it
    selects, added in the order of its rows, and the breakdowns list the
    same categories; when the order of the rows is the same, the
    summaries are equal and so are the breakdowns.  In any arithmetic. *)
Theorem implementations_agree_up_to_row_order
    (ds ds' : Dataset) (now : Z) (userId : string) :
  sameRows ds ds' -> agreeUpToRowOrder ds ds' now userId.
Proof.
  intros [Pa Pt]. unfold agreeUpToRowOrder.
  refine (conj _ (conj _ (conj _ (conj (Mock_summaryOf ds now userId)
            (conj (Database_summaryOf ds' now userId) (conj _ _)))))).
  - unfold MockStorage.userAccounts, DatabaseStorage.accountsData.
    now apply filter_perm.
  - refine (eq_ind_r (fun l => Permutation l _) _
              (Mock_monthlyTransactions ds now userId)).
    unfold DatabaseStorage.monthlyTransactions. now apply filter_perm.
  - refine (eq_ind_r (fun l => Permutation l _) _
              (Mock_expenseTransactions ds now userId)).
    unfold DatabaseStorage.expenseTransactions. now apply filter_perm.
  - refine (eq_ind_r (fun l => Permutation (map category l) _) _
              (Mock_getExpenseBreakdown ds now userId)).
    now apply categories_perm.
  - intros ->. split.
    + apply Mock_getFinancialSummary.
    + apply Mock_getExpenseBreakdown.
Qed.
End SameRows.

Lemma implementations_agree_up_to_row_order_witness :
  agreeUpToRowOrder (Num := JS.Binary64) (tz := JS.utcZone)
    Sample.tenths Sample.tenthsReversed Sample.jan15 "u".
Proof.
  apply implementations_agree_up_to_row_order.
  split; [ apply Permutation_refl | apply Permutation_rev ].
Defined.

(** C10, as the specification words it, fails in the arithmetic of the
    runtime: the sums depend on the order of the rows.  For the expenses
    0.10, 0.20 and 0.30 held in this order and returned by the query in
    the opposite order, the burn is 0.6000000000000001 in one summary and
    0.6 in the other. *)
Lemma implementations_differ_on_row_order :
  ~ implementationsAgree (Num := JS.Binary64) (tz := JS.utcZone).
Proof.
  intros H.
  destruct (H Sample.tenths Sample.tenthsReversed Sample.jan15 "u"%string)
    as [S _].
  { split; [ apply Permutation_refl | apply Permutation_rev ]. }
  apply (f_equal
           (fun s : FinancialSummary (Num := JS.Binary64) =>
              Prim2SF (monthlyBurn s : float))) in S.
  vm_compute in S. discriminate S.
Qed.

(** * Further properties: the store, the routes and the pages *)

(** ** Arrays *)

Module ArrayFacts.
Import JSArray.

Lemma find_app {A} (p : A -> bool) (l l' : list A) :
  find p (l ++ l')
  = match find p l with Some x => Some x | None => find p l' end.
Proof.
  induction l as [ | x l IH]; simpl; [ reflexivity | ].
  destruct (p x); [ reflexivity | exact IH ].
Qed.

Lemma find_none {A} (p : A -> bool) (l : list A) :
  find p l = None <-> (forall x, In x l -> p x = false).
Proof.
  induction l as [ | x l IH]; simpl.
  - split; [ intros _ y [] | reflexivity ].
  - destruct (p x) eqn:E.
    + split; [ discriminate | ]. intros H.
      rewrite (H x (or_introl eq_refl)) in E. discriminate.
    + rewrite IH. split.
      * intros H y [<- | Hy]; auto.
      * intros H y Hy. apply H. now right.
Qed.

(** The first element that satisfies [p] splits the array. *)
Lemma find_split {A} (p : A -> bool) (l : list A) (x : A) :
  find p l = Some x ->
  exists pre post,
    l = pre ++ x :: post /\ find p pre = None /\ p x = true.
Proof.
  induction l as [ | y l IH]; simpl; [ discriminate | ].
  destruct (p y) eqn:E.
  - intros [= ->]. now exists [], l.
  - intros H. destruct (IH H) as (pre & post & -> & N & P).
    exists (y :: pre), post. simpl. now rewrite E.
Qed.

Lemma findIndex_none {A} (p : A -> bool) (l : list A) :
  findIndex p l = None <-> find p l = None.
Proof.
  induction l as [ | x l IH]; simpl; [ tauto | ].
  destruct (p x); [ split; discriminate | ].
  destruct (findIndex p l); [ | tauto ].
  split; [ discriminate | ]. intros H. apply IH in H. discriminate.
Qed.

Lemma findIndex_split {A} (p : A -> bool) (pre post : list A) (x : A) :
  find p pre = None -> p x = true ->
  findIndex p (pre ++ x :: post) = Some (List.length pre).
Proof.
  intros N P. induction pre as [ | y pre IH]; simpl in *.
  - now rewrite P.
  - destruct (p y); [ discriminate | ]. now rewrite (IH N).
Qed.

Lemma splice1_split {A} (pre post : list A) (x : A) :
  splice1 (List.length pre) (pre ++ x :: post) = pre ++ post.
Proof. induction pre as [ | y pre IH]; simpl; [ | rewrite IH ]; auto. Qed.

Lemma insertSorted_perm {A} (compare : A -> A -> Z) (x : A) (l : list A) :
  Permutation (insertSorted compare x l) (x :: l).
Proof.
  induction l as [ | y l IH]; simpl; [ apply Permutation_refl | ].
  destruct (compare x y <=? 0); [ apply Permutation_refl | ].
  rewrite IH. apply perm_swap.
Qed.

Lemma sort_perm {A} (compare : A -> A -> Z) (l : list A) :
  Permutation (sort compare l) l.
Proof.
  induction l as [ | x l IH]; simpl; [ constructor | ].
  rewrite insertSorted_perm. now constructor.
Qed.

Lemma slice0_length {A} (l : list A) (last : index) :
  Z.of_nat (List.length (slice0 l last))
  = match last with
    | NaNIndex => 0
    | Index n =>
        if n <? 0 then Z.max (Z.of_nat (List.length l) + n) 0
        else Z.min n (Z.of_nat (List.length l))
    end.
Proof.
  unfold slice0. rewrite length_firstn.
  destruct last as [ | n]; [ reflexivity | ].
  destruct (Z.ltb_spec n 0); lia.
Qed.

Lemma slice0_prefix {A} (l : list A) (last : index) :
  exists rest, l = slice0 l last ++ rest.
Proof.
  unfold slice0. eexists. symmetry. apply firstn_skipn.
Qed.
End ArrayFacts.

(** ** The store *)

Module StoreFacts.
Import MockStore.

Lemma updateFirst_none {A} (p : A -> bool) (f : A -> A) (l : list A) :
  updateFirst p f l = None <-> JSArray.find p l = None.
Proof.
  induction l as [ | x l IH]; simpl; [ tauto | ].
  destruct (p x); [ split; discriminate | ].
  destruct (updateFirst p f l) as [[y l'] | ]; [ | tauto ].
  split; [ discriminate | ]. intros H. apply IH in H. discriminate.
Qed.

Lemma updateFirst_split {A} (p : A -> bool) (f : A -> A)
    (pre post : list A) (x : A) :
  JSArray.find p pre = None -> p x = true ->
  updateFirst p f (pre ++ x :: post) = Some (f x, pre ++ f x :: post).
Proof.
  intros N P. induction pre as [ | y pre IH]; simpl in *.
  - now rewrite P.
  - destruct (p y); [ discriminate | ]. now rewrite (IH N).
Qed.

Lemma updateFirst_length {A} (p : A -> bool) (f : A -> A) (l l' : list A)
    (y : A) :
  updateFirst p f l = Some (y, l') -> List.length l' = List.length l.
Proof.
  revert l' y. induction l as [ | x l IH]; simpl; intros l' y;
    [ discriminate | ].
  destruct (p x).
  - now intros [= <- <-].
  - destruct (updateFirst p f l) as [[z l''] | ]; [ | discriminate ].
    intros [= <- <-]. simpl. f_equal. now apply (IH l'' z).
Qed.

Lemma removeFirst_none {A} (p : A -> bool) (l : list A) :
  JSArray.find p l = None -> removeFirst p l = l.
Proof.
  intros H. unfold removeFirst.
  now rewrite (proj2 (ArrayFacts.findIndex_none p l) H).
Qed.

Lemma removeFirst_split {A} (p : A -> bool) (pre post : list A) (x : A) :
  JSArray.find p pre = None -> p x = true ->
  removeFirst p (pre ++ x :: post) = pre ++ post.
Proof.
  intros N P. unfold removeFirst.
  rewrite (ArrayFacts.findIndex_split p pre post x N P).
  apply ArrayFacts.splice1_split.
Qed.

Lemma same_state (this : state) :
  withAccounts this this.(accounts) = this.
Proof. now destruct this. Qed.

(** Looking up another identifier skips an element that does not bear
    it, whatever replaces that element. *)
Lemma find_other {A} (q : A -> bool) (pre post : list A) (x : A) :
  q x = false ->
  JSArray.find q (pre ++ x :: post) = JSArray.find q (pre ++ post).
Proof.
  intros H. rewrite !ArrayFacts.find_app. simpl. now rewrite H.
Qed.
End StoreFacts.

Section Accounts.
Import MockStore.

(** X1: after [createAccount], looking an identifier up gives what it
    gave before and, where it gave nothing, the new account under the
    identifier it was created with: an account created under an
    identifier already in use cannot be looked up.  The new account is
    the last of the accounts of its user; transactions and budgets are
    untouched. *)
Theorem createAccount_then_getAccount
    (nanoid : string) (now : Z) (this : state) (a : insertAccount) :
  let created := fst (createAccount nanoid now this a) in
  let this' := snd (createAccount nanoid now this a) in
  (forall id,
     getAccount this' id
     = match getAccount this id with
       | Some old => Some old
       | None => if String.eqb nanoid id then Some created else None
       end)
  /\ (forall userId,
        getAccountsByUserId this' userId
        = getAccountsByUserId this userId
          ++ (if String.eqb a.(new_account_userId) userId
              then [created] else []))
  /\ this'.(transactions) = this.(transactions)
  /\ this'.(budgets) = this.(budgets).
Proof.
  intros created this'. repeat split.
  - intros id. unfold getAccount, this', created. simpl.
    rewrite ArrayFacts.find_app. simpl.
    destruct (JSArray.find _ this.(accounts)); reflexivity.
  - intros userId. unfold getAccountsByUserId, this', created. simpl.
    rewrite filter_app. simpl.
    destruct (String.eqb a.(new_account_userId) userId); reflexivity.
Qed.

(** X2: [updateAccount] throws "Account not found" exactly when
    [getAccount] finds nothing; otherwise it returns the first account
    with that identifier merged with the updates, stores it in the same
    place, and changes no other account, transaction or budget.  When
    the updates leave the identifier alone, [getAccount] then returns the
    merged account. *)
Theorem updateAccount_outcome
    (this : state) (id : string) (updates : partialAccount) :
  match getAccount this id with
  | None => updateAccount this id updates = Thrown "Account not found"
  | Some old =>
      let merged := mergeAccount updates old in
      exists pre post,
        this.(accounts) = pre ++ old :: post
        /\ JSArray.find (fun a => String.eqb a.(account_id) id) pre = None
        /\ updateAccount this id updates
           = Returned (merged, withAccounts this (pre ++ merged :: post))
        /\ (updates.(set_account_id) = None ->
            getAccount (withAccounts this (pre ++ merged :: post)) id
            = Some merged
            /\ forall id', id' <> id ->
                 getAccount (withAccounts this (pre ++ merged :: post)) id'
                 = getAccount this id')
  end.
Proof.
  unfold getAccount, updateAccount.
  destruct (JSArray.find _ this.(accounts)) as [old | ] eqn:F.
  - destruct (ArrayFacts.find_split _ _ _ F) as (pre & post & E & N & P).
    exists pre, post.
    refine (conj E (conj N (conj _ _))).
    + rewrite E. now rewrite (StoreFacts.updateFirst_split _ _ _ _ _ N P).
    + intros H. split.
      * simpl. rewrite ArrayFacts.find_app, N. simpl.
        rewrite H. simpl. now rewrite P.
      * intros id' D. simpl. rewrite E.
        assert (Q : String.eqb (account_id old) id' = false).
        { apply String.eqb_eq in P. rewrite P. now apply String.eqb_neq. }
        rewrite (StoreFacts.find_other _ pre post old Q).
        apply StoreFacts.find_other. simpl. now rewrite H.
  - now rewrite (proj2 (StoreFacts.updateFirst_none _ _ _) F).
Qed.
End Accounts.

Section DeleteAccount.
Import MockStore.

Lemma find_unique {A} (key : A -> string) (id : string)
    (pre post : list A) (x : A) :
  NoDup (map key (pre ++ x :: post)) -> key x = id ->
  JSArray.find (fun a => String.eqb (key a) id) (pre ++ post) = None.
Proof.
  intros D K. apply ArrayFacts.find_none. intros y Hy.
  apply String.eqb_neq. intros E.
  rewrite map_app in D. simpl in D. apply NoDup_remove_2 in D.
  apply D. rewrite <- map_app, K, <- E. now apply in_map.
Qed.

(** X3: [deleteAccount] removes the first account with the identifier
    and nothing else: no other identifier changes its account, an unknown
    identifier leaves the store as it is (nothing is thrown), and when
    identifiers are unique the account can no longer be looked up.  The
    transactions of the account stay in the store, so the burn, the
    revenue and the breakdown that the analytics compute are the same
    after the deletion. *)
Theorem deleteAccount_outcome (this : state) (id : string) :
  let this' := deleteAccount this id in
  (getAccount this id = None -> this' = this)
  /\ (forall id', id' <> id -> getAccount this' id' = getAccount this id')
  /\ (NoDup (map account_id this.(accounts)) -> getAccount this' id = None)
  /\ this'.(transactions) = this.(transactions)
  /\ this'.(budgets) = this.(budgets)
  /\ (forall (Num : JS.JSNumber) (tz : JS.TimeZone) (now : Z)
        (userId : string),
        let before := MockStorage.getFinancialSummary (dataset this)
                        now userId in
        let after := MockStorage.getFinancialSummary (dataset this')
                       now userId in
        after.(monthlyBurn) = before.(monthlyBurn)
        /\ after.(monthlyRevenue) = before.(monthlyRevenue)
        /\ MockStorage.getExpenseBreakdown (dataset this') now userId
           = MockStorage.getExpenseBreakdown (dataset this) now userId).
Proof.
  intros this'. unfold this', deleteAccount, getAccount.
  refine (conj _ (conj _ (conj _ (conj eq_refl (conj eq_refl _))))).
  - intros H. rewrite (StoreFacts.removeFirst_none _ _ H).
    apply StoreFacts.same_state.
  - intros id' D. simpl.
    destruct (JSArray.find (fun a => String.eqb (account_id a) id)
                this.(accounts)) as [x | ] eqn:F.
    + destruct (ArrayFacts.find_split _ _ _ F) as (pre & post & E & N & P).
      rewrite E, (StoreFacts.removeFirst_split _ _ _ _ N P).
      symmetry. apply StoreFacts.find_other.
      apply String.eqb_eq in P. rewrite P. now apply String.eqb_neq.
    + now rewrite (StoreFacts.removeFirst_none _ _ F).
  - intros D. simpl.
    destruct (JSArray.find (fun a => String.eqb (account_id a) id)
                this.(accounts)) as [x | ] eqn:F.
    + destruct (ArrayFacts.find_split _ _ _ F) as (pre & post & E & N & P).
      rewrite E in *. rewrite (StoreFacts.removeFirst_split _ _ _ _ N P).
      apply (find_unique account_id id pre post x D).
      now apply String.eqb_eq.
    + now rewrite (StoreFacts.removeFirst_none _ _ F).
  - intros Num tz now userId. repeat split.
Qed.
End DeleteAccount.

Section ListTransactions.
Import MockStore.

Lemma insertSorted_newestFirst (x : storedTransaction)
    (l : list storedTransaction) :
  StronglySorted newestFirstOrder l ->
  StronglySorted newestFirstOrder (JSArray.insertSorted newestFirst x l).
Proof.
  intros S. induction S as [ | y l S IH F]; simpl.
  - repeat constructor.
  - unfold newestFirst at 1.
    destruct (Z.leb_spec (transaction_date y - transaction_date x) 0).
    + constructor; [ now constructor | ].
      constructor; [ unfold newestFirstOrder; lia | ].
      apply Forall_forall. intros z Hz.
      rewrite Forall_forall in F. specialize (F z Hz).
      unfold newestFirstOrder in *. lia.
    + constructor; [ exact IH | ].
      apply Forall_forall. intros z Hz.
      apply (Permutation_in _ (ArrayFacts.insertSorted_perm _ x l)) in Hz.
      destruct Hz as [<- | Hz].
      * unfold newestFirstOrder. lia.
      * rewrite Forall_forall in F. now apply F.
Qed.

Lemma sort_newestFirst (l : list storedTransaction) :
  StronglySorted newestFirstOrder (JSArray.sort newestFirst l).
Proof.
  induction l as [ | x l IH]; simpl; [ constructor | ].
  now apply insertSorted_newestFirst.
Qed.

(** The sort is stable: the transactions of one instant keep the order
    in which they are stored. *)
Lemma insertSorted_stable (d : Z) (x : storedTransaction)
    (l : list storedTransaction) :
  filter (fun t => t.(transaction_date) =? d)
    (JSArray.insertSorted newestFirst x l)
  = filter (fun t => t.(transaction_date) =? d) (x :: l).
Proof.
  induction l as [ | y l IH]; simpl; [ reflexivity | ].
  unfold newestFirst at 1.
  destruct (Z.leb_spec (transaction_date y - transaction_date x) 0).
  - reflexivity.
  - simpl. rewrite IH. simpl.
    destruct (Z.eqb_spec (transaction_date x) d),
      (Z.eqb_spec (transaction_date y) d); try reflexivity. lia.
Qed.

Lemma sort_stable (d : Z) (l : list storedTransaction) :
  filter (fun t => t.(transaction_date) =? d) (JSArray.sort newestFirst l)
  = filter (fun t => t.(transaction_date) =? d) l.
Proof.
  induction l as [ | x l IH]; simpl; [ reflexivity | ].
  rewrite insertSorted_stable. simpl. now rewrite IH.
Qed.

Lemma sorted_app (r rest : list storedTransaction) :
  StronglySorted newestFirstOrder (r ++ rest) ->
  StronglySorted newestFirstOrder r
  /\ forall x y, In x r -> In y rest -> newestFirstOrder x y.
Proof.
  induction r as [ | a r IH]; simpl; intros S.
  - split; [ constructor | intros x y [] ].
  - inversion S as [ | ? ? S' F]; subst. destruct (IH S') as [Sr C].
    split.
    + constructor; [ exact Sr | ].
      rewrite Forall_forall in *. intros z Hz. apply F.
      apply in_or_app. now left.
    + intros x y [<- | Hx] Hy.
      * rewrite Forall_forall in F. apply F. apply in_or_app. now right.
      * now apply C.
Qed.

(** X4: [getTransactionsByUserId] returns transactions of the user only,
    newest first, and they are the newest ones: what it leaves out, of the
    transactions of the user, is no newer than anything it returns.  It
    returns [limit] of them when there are that many, 50 without a limit;
    a limit that is NaN returns none, and a negative limit -k leaves out
    the k oldest. *)
Theorem getTransactionsByUserId_newest_first
    (this : state) (userId : string) (limit : option JSArray.index) :
  let mine :=
    filter (fun t => String.eqb t.(transaction_userId) userId)
      this.(transactions) in
  let count := Z.of_nat (List.length mine) in
  let returned := getTransactionsByUserId this userId limit in
  Forall (fun t => t.(transaction_userId) = userId) returned
  /\ StronglySorted newestFirstOrder returned
  /\ (exists rest,
        Permutation (returned ++ rest) mine
        /\ forall x y, In x returned -> In y rest -> newestFirstOrder x y)
  /\ Z.of_nat (List.length returned)
     = match limit with
       | None => Z.min 50 count
       | Some JSArray.NaNIndex => 0
       | Some (JSArray.Index n) =>
           if n <? 0 then Z.max (count + n) 0 else Z.min n count
       end.
Proof.
  intros mine count returned.
  set (sorted := JSArray.sort newestFirst mine).
  assert (PS : Permutation sorted mine) by apply ArrayFacts.sort_perm.
  assert (L : List.length sorted = List.length mine)
    by now apply Permutation_length.
  destruct (ArrayFacts.slice0_prefix sorted
              (match limit with Some n => n | None => JSArray.Index 50 end))
    as [rest E].
  fold mine sorted in E.
  change (JSArray.slice0 sorted _) with returned in E.
  pose proof (sort_newestFirst mine) as S. fold sorted in S.
  rewrite E in S. destruct (sorted_app _ _ S) as [Sr C].
  refine (conj _ (conj Sr (conj _ _))).
  - apply Forall_forall. intros t Ht.
    assert (In t mine) as Hm.
    { apply (Permutation_in _ PS). rewrite E. apply in_or_app. now left. }
    apply filter_In in Hm. now apply String.eqb_eq.
  - exists rest. split; [ now rewrite <- E | exact C ].
  - unfold returned, getTransactionsByUserId. fold mine sorted.
    rewrite ArrayFacts.slice0_length, L. fold count.
    destruct limit as [[ | n] | ]; reflexivity.
Qed.

(** X5: [getTransactionsByAccountId] returns exactly the transactions of
    the account, each as often as it is stored, newest first, and those
    of one instant in the order in which they are stored. *)
Theorem getTransactionsByAccountId_sorted
    (this : state) (accountId : string) :
  let mine :=
    filter (fun t => String.eqb t.(transaction_accountId) accountId)
      this.(transactions) in
  let returned := getTransactionsByAccountId this accountId in
  Permutation returned mine
  /\ StronglySorted newestFirstOrder returned
  /\ forall d,
       filter (fun t => t.(transaction_date) =? d) returned
       = filter (fun t => t.(transaction_date) =? d) mine.
Proof.
  intros mine returned. unfold returned, getTransactionsByAccountId.
  fold mine. split; [ apply ArrayFacts.sort_perm | ].
  split; [ apply sort_newestFirst | intros d; apply sort_stable ].
Qed.
End ListTransactions.

Section BulkUpdate.
Import MockStore.

Lemma bulk_fold_length (updates : partialTransaction) (ids : list string)
    (done : list storedTransaction) (l : list storedTransaction) :
  let '(updated, l') :=
    fold_left
      (fun '(updatedTransactions, l) id =>
         match updateFirst (fun t => String.eqb t.(transaction_id) id)
                 (mergeTransaction updates) l with
         | Some (updated, l') => (updatedTransactions ++ [updated], l')
         | None => (updatedTransactions, l)
         end)
      ids (done, l) in
  List.length l' = List.length l
  /\ (List.length updated <= List.length done + List.length ids)%nat
  /\ ((forall id, In id ids ->
         JSArray.find (fun t => String.eqb t.(transaction_id) id) l = None) ->
      updated = done /\ l' = l).
Proof.
  revert done l. induction ids as [ | id ids IH]; intros done l; simpl.
  - repeat split; lia.
  - destruct (updateFirst _ _ l) as [[u l1] | ] eqn:U.
    + specialize (IH (done ++ [u]) l1).
      destruct (fold_left _ ids (done ++ [u], l1)) as [updated l'].
      destruct IH as (A & B & _).
      rewrite (StoreFacts.updateFirst_length _ _ _ _ _ U) in A.
      rewrite length_app in B. simpl in B.
      refine (conj A (conj _ _)); [ lia | ].
      intros H. specialize (H id (or_introl eq_refl)).
      apply StoreFacts.updateFirst_none with (f := mergeTransaction updates)
        in H.
      rewrite H in U. discriminate.
    + specialize (IH done l).
      destruct (fold_left _ ids (done, l)) as [updated l'].
      destruct IH as (A & B & C).
      refine (conj A (conj _ _)); [ lia | ].
      intros H. apply C. intros id' Hid. apply H. now right.
Qed.

(** X6: [bulkUpdateTransactions] never throws: an identifier that is not
    in the store is skipped, where [updateTransaction] throws
    "Transaction not found".  For one identifier it does what
    [updateTransaction] does; it returns at most one transaction per
    identifier, keeps the number of stored transactions, and when none of
    the identifiers is known it returns nothing and leaves the store as
    it is. *)
Theorem bulkUpdateTransactions_skips_unknown
    (this : state) (ids : list string) (updates : partialTransaction) :
  let updated := fst (bulkUpdateTransactions this ids updates) in
  let this' := snd (bulkUpdateTransactions this ids updates) in
  List.length this'.(transactions) = List.length this.(transactions)
  /\ (List.length updated <= List.length ids)%nat
  /\ this'.(accounts) = this.(accounts)
  /\ ((forall id, In id ids -> getTransaction this id = None) ->
      updated = [] /\ this' = this)
  /\ (forall id,
        bulkUpdateTransactions this [id] updates
        = match updateTransaction this id updates with
          | Returned (t, after) => ([t], after)
          | Thrown _ => ([], this)
          end).
Proof.
  intros updated this'. unfold updated, this', bulkUpdateTransactions.
  pose proof (bulk_fold_length updates ids [] this.(transactions)) as H.
  destruct (fold_left _ ids ([], this.(transactions))) as [u l].
  destruct H as (A & B & C). simpl.
  refine (conj A (conj B (conj eq_refl (conj _ _)))).
  - intros H. destruct (C H) as [-> ->]. split; [ reflexivity | ].
    now destruct this.
  - intros id. unfold updateTransaction. simpl.
    destruct (updateFirst _ _ this.(transactions)) as [[t l1] | ];
      [ reflexivity | ].
    now destruct this.
Qed.
End BulkUpdate.

(** ** The routes *)

Section RouteTable.
Import Routes.
Local Open Scope string_scope.

Lemma bulk_matches_id (path : string) (params : list (string * string)) :
  matchPath [Literal "api"; Literal "transactions"; Literal "bulk"] path
  = Some params ->
  matchPath [Literal "api"; Literal "transactions"; Param "id"] path <> None.
Proof.
  unfold matchPath. destruct (splitPath path "") as [ | first rest];
    [ discriminate | ].
  destruct (first =? ""); [ | discriminate ].
  intros H.
  destruct rest as [ | s1 [ | s2 [ | s3 [ | last [ | ? ?]]]]];
    cbn [matchSegments] in *;
    repeat match type of H with
           | context [if ?c then _ else _] => destruct c eqn:?
           end;
    try discriminate H;
    (destruct (String.eqb_spec s3 "") as [-> | _];
      [ discriminate | ]);
    repeat match goal with
           | E : ?c = true |- context [if ?c then _ else _] => rewrite E
           end;
    discriminate.
Qed.

(** X7: the route [PUT /api/transactions/bulk] is registered after
    [PUT /api/transactions/:id], which matches every path that it
    matches: no request ever reaches the handler of the bulk update, and
    a [PUT] of [/api/transactions/bulk] is handled as the update of the
    single transaction whose identifier is the text [bulk]. *)
Theorem bulk_route_is_shadowed :
  (forall (m : method) (path : string) (params : list (string * string)),
     dispatch m path <> Some (PutTransactionsBulk, params))
  /\ dispatch PUT "/api/transactions/bulk"
     = Some (PutTransaction, [("id", "bulk")]).
Proof.
  split; [ | reflexivity ].
  intros m path params. unfold dispatch, routes.
  destruct m; cbn [dispatchIn method_eqb];
    repeat match goal with
           | |- context [matchPath ?p path] =>
               let E := fresh "E" in
               destruct (matchPath p path) eqn:E; [ discriminate | ]
           end;
    try discriminate.
  destruct (matchPath [Literal "api"; Literal "transactions"; Literal "bulk"]
              path) eqn:B; [ | discriminate ].
  now apply bulk_matches_id in B.
Qed.
End RouteTable.

(** * The client pages *)

(** ** The budget page *)

Section Budgets.
Context {Num : JS.JSNumber}.
Import JS.
Local Open Scope string_scope.

(** X9: the alert list of the budget page against the status shown on the
    cards: a budget of the alert list is a budget of the page whose card
    does not say "good", and a budget whose card says "warning" is in the
    alert list. *)
Theorem alerts_and_card_status (budgets : list MockStore.storedBudget)
    (expenseBreakdown : list ExpenseCategory)
    (budget : MockStore.storedBudget) :
  (In budget (Client.alertBudgets budgets expenseBreakdown) ->
   In budget budgets
   /\ Client.status (Client.cardStatus expenseBreakdown budget) <> "good")
  /\ (In budget budgets ->
      Client.status (Client.cardStatus expenseBreakdown budget) = "warning" ->
      In budget (Client.alertBudgets budgets expenseBreakdown)).
Proof.
  unfold Client.alertBudgets, Client.cardStatus, Client.getBudgetStatus.
  rewrite filter_In. cbv zeta.
  set (percentage := (_ * lit 100)%js).
  destruct (Client.nge percentage (lit 100));
    destruct (Client.nge percentage _); simpl; split;
    try (intros [I A]; split; [ exact I | discriminate ]);
    try (intros [_ A]; discriminate A);
    try (intros I _; split; [ exact I | reflexivity ]);
    try (intros _ A; discriminate A).
Qed.
End Budgets.

(** ** The forecasting page, in the arithmetic of the runtime *)

Section Forecasting.
Import JS.

Lemma unchanged_factor :
  nadd (JSNumber := Binary64) (lit 1)
    (ndiv (JSNumber := Binary64) (lit 0) (lit 100))
  = 1%float.
Proof. vm_compute. reflexivity. Qed.

Lemma calculateRunway_unchanged (s : FinancialSummary (Num := Binary64)) :
  Client.calculateRunway (Some s) (lit 0) (lit 0)
  = if ngt (JSNumber := Binary64)
         (nsub (JSNumber := Binary64) s.(monthlyBurn) s.(monthlyRevenue))
         (lit 0)
    then ndiv (JSNumber := Binary64) s.(totalBalance)
           (nsub (JSNumber := Binary64) s.(monthlyBurn) s.(monthlyRevenue))
    else lit 999.
Proof.
  unfold Client.calculateRunway. cbv zeta. rewrite unchanged_factor.
  change (nmul (JSNumber := Binary64)) with PrimFloat.mul.
  rewrite !Laws.mul_1_r. reflexivity.
Qed.

(** X10: in the arithmetic of the runtime, the runway of a scenario that
    changes nothing (growth 0, burn rate 0) is, for every summary, the
    balance over [monthlyBurn - monthlyRevenue] when that is positive and
    999 otherwise, although [monthlyBurn] is what the server has already
    reduced by the revenue; for the summary of the server it is the
    runway of the server when the revenue of the month is 0. *)
Theorem unchanged_scenario_against_server :
  (forall s : FinancialSummary (Num := Binary64),
     Client.calculateRunway (Some s) (lit 0) (lit 0)
     = if ngt (JSNumber := Binary64)
            (nsub (JSNumber := Binary64) s.(monthlyBurn) s.(monthlyRevenue))
            (lit 0)
       then ndiv (JSNumber := Binary64) s.(totalBalance)
              (nsub (JSNumber := Binary64) s.(monthlyBurn)
                 s.(monthlyRevenue))
       else lit 999)
  /\ (forall (tz : TimeZone) (ds : Dataset) (now : Z) (userId : string),
        (DatabaseStorage.getFinancialSummary (Num := Binary64) ds now userId)
          .(monthlyRevenue) = lit (Num := Binary64) 0 ->
        Client.calculateRunway
          (Some (DatabaseStorage.getFinancialSummary (Num := Binary64) ds
                   now userId))
          (lit 0) (lit 0)
        = (DatabaseStorage.getFinancialSummary (Num := Binary64) ds now
             userId).(runwayMonths)).
Proof.
  split; [ exact calculateRunway_unchanged | ].
  intros tz ds now userId.
  rewrite calculateRunway_unchanged.
  unfold DatabaseStorage.getFinancialSummary. cbv zeta.
  cbn [totalBalance monthlyBurn monthlyRevenue runwayMonths].
  generalize (DatabaseStorage.totalBalanceOf (Num := Binary64)
                (DatabaseStorage.accountsData ds userId)).
  generalize (nsub (JSNumber := Binary64)
                (DatabaseStorage.monthlyExpensesOf (Num := Binary64)
                   (DatabaseStorage.monthlyTransactions ds now userId))
                (DatabaseStorage.monthlyRevenueOf (Num := Binary64)
                   (DatabaseStorage.monthlyTransactions ds now userId))).
  generalize (DatabaseStorage.monthlyRevenueOf (Num := Binary64)
                (DatabaseStorage.monthlyTransactions ds now userId)).
  intros R b T ->.
  change (nsub (JSNumber := Binary64) b (lit 0)) with (b - 0)%float.
  rewrite Laws.sub_0_r. reflexivity.
Qed.
End Forecasting.

(** ** The categories of the breakdown, in any arithmetic *)

Section BreakdownCategories.
Context {Num : JS.JSNumber} {tz : JS.TimeZone}.
Import JS.
Local Open Scope string_scope.

Variable ds : Dataset.
Variable now : Z.
Variable userId : string.

(** X14: the categories of the expense breakdown: no category is listed
    twice, and the categories listed are those of the expenses of the
    month ("Uncategorized" for an expense without category), the text
    [__proto__] apart. *)
Theorem breakdown_categories :
  NoDup (map category (DatabaseStorage.getExpenseBreakdown ds now userId))
  /\ forall c : string,
       In c (map category (DatabaseStorage.getExpenseBreakdown ds now userId))
       <-> c <> "__proto__"
           /\ exists t : Transaction.t,
                In t (DatabaseStorage.expenseTransactions ds now userId)
                /\ orString t.(Transaction.category) "Uncategorized" = c.
Proof. exact (categories_of_breakdown ds now userId). Qed.
End BreakdownCategories.
